(** * Channel Optimization Analyzer: a shallow embedding and its properties

    The development follows [Channel_Optimization_Analyzer/channel_optimizer.py]
    and [Channel_Optimization_Analyzer/visualize_plan.py].

    Python values are modelled as the interpreter has them: an [int] is an
    unbounded [Z], a [float] is an IEEE 754 binary64 number (Rocq's primitive
    [float], whose operations round to nearest even exactly as the hardware
    does), a number is one or the other, a [dict] that is iterated is an
    association list in insertion order, and an exception is a value of [exn]
    carried by the [result] type. *)

From Stdlib Require Import ZArith QArith Floats Ascii.
From stdpp Require Import base list strings gmap pretty sorting.

Set Warnings "-inexact-float".
Set Default Proof Using "Type".

Open Scope Z_scope.

(** ** Python: exceptions, numbers and their arithmetic *)

Module Py.

Inductive exn : Type :=
| ZeroDivisionError
| OverflowError
| ValueError
| IndexError
| TypeError
| KeyError (key : string)
| FileNotFoundError (path : string).

Inductive result (A : Type) : Type :=
| Ok (a : A)
| Raise (e : exn).
Arguments Ok {A} a.
Arguments Raise {A} e.

#[export] Instance result_ret : MRet result := @Ok.
#[export] Instance result_bind : MBind result :=
  fun A B f m => match m with Ok a => f a | Raise e => Raise e end.
#[export] Instance result_fmap : FMap result :=
  fun A B f m => match m with Ok a => Ok (f a) | Raise e => Raise e end.

(** A Python number: [int] or [float]. *)
Inductive num : Type :=
| PyInt (z : Z)
| PyFloat (f : float).

(** The integer [z] with its sign split off, as a binary64 operand with
    exponent 0 (the mantissa is not yet rounded). *)
Definition raw_int (z : Z) : spec_float :=
  match z with
  | Z0 => S754_zero false
  | Zpos m => S754_finite false m 0
  | Zneg m => S754_finite true m 0
  end.

(** [float(z)]: the nearest binary64 number, ties to even; an [int] beyond
    the range of [float] raises [OverflowError]. *)
Definition float_of_int (z : Z) : result float :=
  let f := SF2Prim (binary_normalize prec emax z 0 false) in
  if PrimFloat.is_infinity f then Raise OverflowError else Ok f.

(** [a / b] on two [int]s: the correctly rounded quotient. *)
Definition int_true_divide (a b : Z) : result float :=
  if b =? 0 then Raise ZeroDivisionError
  else
    let f := SF2Prim (SFdiv prec emax (raw_int a) (raw_int b)) in
    if PrimFloat.is_infinity f then Raise OverflowError else Ok f.

Definition float_div (f g : float) : result float :=
  if PrimFloat.eqb g 0%float then Raise ZeroDivisionError
  else Ok (f / g)%float.

Definition py_mul (a b : num) : result num :=
  match a, b with
  | PyInt x, PyInt y => Ok (PyInt (x * y))
  | PyInt x, PyFloat g => f ← float_of_int x; Ok (PyFloat (f * g)%float)
  | PyFloat f, PyInt y => g ← float_of_int y; Ok (PyFloat (f * g)%float)
  | PyFloat f, PyFloat g => Ok (PyFloat (f * g)%float)
  end.

Definition py_add (a b : num) : result num :=
  match a, b with
  | PyInt x, PyInt y => Ok (PyInt (x + y))
  | PyInt x, PyFloat g => f ← float_of_int x; Ok (PyFloat (f + g)%float)
  | PyFloat f, PyInt y => g ← float_of_int y; Ok (PyFloat (f + g)%float)
  | PyFloat f, PyFloat g => Ok (PyFloat (f + g)%float)
  end.

Definition py_truediv (a b : num) : result num :=
  match a, b with
  | PyInt x, PyInt y => PyFloat <$> int_true_divide x y
  | PyInt x, PyFloat g => f ← float_of_int x; PyFloat <$> float_div f g
  | PyFloat f, PyInt y => g ← float_of_int y; PyFloat <$> float_div f g
  | PyFloat f, PyFloat g => PyFloat <$> float_div f g
  end.

Definition signed (s : bool) (m : positive) : Z :=
  if s then Zneg m else Zpos m.

(** Comparison of a [float] with an [int] is exact in Python: the float is
    not rounded and the int is not converted. [None] stands for "unordered"
    (a NaN operand). *)
Definition float_compare_int (f : float) (z : Z) : option comparison :=
  match Prim2SF f with
  | S754_nan => None
  | S754_infinity s => Some (if s then Lt else Gt)
  | S754_zero _ => Some (0 ?= z)
  | S754_finite s m e =>
      if 0 <=? e then Some (signed s m * 2 ^ e ?= z)
      else Some (signed s m ?= z * 2 ^ (- e))
  end.

Definition num_compare (a b : num) : option comparison :=
  match a, b with
  | PyInt x, PyInt y => Some (x ?= y)
  | PyFloat f, PyInt y => float_compare_int f y
  | PyInt x, PyFloat g => CompOpp <$> float_compare_int g x
  | PyFloat f, PyFloat g =>
      match PrimFloat.compare f g with
      | FEq => Some Eq
      | FLt => Some Lt
      | FGt => Some Gt
      | FNotComparable => None
      end
  end.

(** [a > b] and [a <= b]; both are [False] on unordered operands. *)
Definition py_gt (a b : num) : bool :=
  match num_compare a b with Some Gt => true | _ => false end.

Definition py_le (a b : num) : bool :=
  match num_compare a b with Some Lt | Some Eq => true | _ => false end.

(** [math.ceil]: an [int] is returned as it is; a [float] gives the least
    integer not below it, [ValueError] on NaN and [OverflowError] on an
    infinity. *)
Definition py_ceil (x : num) : result Z :=
  match x with
  | PyInt z => Ok z
  | PyFloat f =>
      match Prim2SF f with
      | S754_nan => Raise ValueError
      | S754_infinity _ => Raise OverflowError
      | S754_zero _ => Ok 0
      | S754_finite s m e => Ok (- Z.shiftl (- signed s m) e)
      end
  end.

(** The integer nearest to [n / d] for [0 < d], ties to the even one. *)
Definition round_half_even (n d : Z) : Z :=
  let q := n / d in
  match 2 * (n mod d) ?= d with
  | Lt => q
  | Gt => q + 1
  | Eq => if Z.even q then q else q + 1
  end.

(** [round(f, 2)] on a [float]: the exact binary value is rounded to two
    decimals (ties to even), and the decimal is read back as the nearest
    [float]; NaN and the infinities round to themselves. *)
Definition float_round2 (f : float) : float :=
  match Prim2SF f with
  | S754_finite s m e =>
      let n := if 0 <=? e then Zpos m * 2 ^ e * 100
               else round_half_even (Zpos m * 100) (2 ^ (- e)) in
      match n with
      | Zpos p =>
          SF2Prim (SFdiv prec emax (S754_finite s p 0) (S754_finite false 100 0))
      | _ => SF2Prim (S754_zero s)
      end
  | _ => f
  end.

(** [round(x, 2)]: an [int] is returned as it is. *)
Definition py_round2 (x : num) : num :=
  match x with
  | PyInt z => PyInt z
  | PyFloat f => PyFloat (float_round2 f)
  end.

(** The exact rational value of a finite number. *)
Definition float_value (f : float) : option Q :=
  match Prim2SF f with
  | S754_zero _ => Some 0%Q
  | S754_finite s m e =>
      Some (if 0 <=? e then inject_Z (signed s m * 2 ^ e)
            else Qmake (signed s m) (Z.to_pos (2 ^ (- e))))
  | _ => None
  end.

Definition value (x : num) : option Q :=
  match x with
  | PyInt z => Some (inject_Z z)
  | PyFloat f => float_value f
  end.

(** [range(n)]. *)
Definition range (n : Z) : list Z := Z.of_nat <$> seq 0 (Z.to_nat n).

(** [l[i]] for a list, with Python's negative indices. *)
Definition index {A} (l : list A) (i : Z) : result A :=
  let n := Z.of_nat (length l) in
  let j := if i <? 0 then i + n else i in
  if (0 <=? j) && (j <? n) then
    match l !! Z.to_nat j with Some a => Ok a | None => Raise IndexError end
  else Raise IndexError.

(** [a % b] on two [int]s. *)
Definition py_mod (a b : Z) : result Z :=
  if b =? 0 then Raise ZeroDivisionError else Ok (a mod b).

End Py.
Import Py.

(** ** channel_optimizer.py *)

Module ChannelOptimizer.

Record Dimensions : Type := {
  dim_width : num;
  dim_length : num;
  dim_height : num
}.

Record ApGrid : Type := { grid_width : Z; grid_length : Z }.

(** The dictionary [analyze_warehouse_layout] returns. *)
Record Layout : Type := {
  dimensions : Dimensions;
  coverage_radius : Z;
  grid_spacing : num;
  ap_grid : ApGrid;
  total_aps : Z;
  vertical_consideration : string
}.

Definition high_ceiling : string :=
  "High ceiling detected - consider downtilt antennas".
Definition standard_ceiling : string :=
  "Standard ceiling height - omnidirectional antennas suitable".

(** [calculate_channel_overlap(self, ch1, ch2, band="2.4")] *)
Definition calculate_channel_overlap (ch1 ch2 : Z) (band : string) : result num :=
  if String.eqb band "2.4" then
    let separation := Z.abs (ch1 - ch2) * 5 in
    if separation >=? 25 then Ok (PyInt 0)
    else if separation =? 0 then Ok (PyInt 100)
    else
      q ← py_truediv (PyInt (25 - separation)) (PyInt 25);
      py_mul q (PyInt 100)
  else Ok (PyInt (if ch1 =? ch2 then 100 else 0)).

(** [analyze_warehouse_layout(self, width_m, length_m, height_m)] *)
Definition analyze_warehouse_layout (width_m length_m height_m : num) : result Layout :=
  let coverage_radius := 25 in
  grid_spacing ← py_mul (PyInt coverage_radius) (PyFloat 1.4);
  aps_width ← py_truediv width_m grid_spacing ≫= py_ceil;
  aps_length ← py_truediv length_m grid_spacing ≫= py_ceil;
  let total_aps := aps_width * aps_length in
  let vertical_consideration :=
    if py_gt height_m (PyInt 10) then high_ceiling else standard_ceiling in
  Ok {| dimensions := {| dim_width := width_m; dim_length := length_m;
                         dim_height := height_m |};
        coverage_radius := coverage_radius;
        grid_spacing := grid_spacing;
        ap_grid := {| grid_width := aps_width; grid_length := aps_length |};
        total_aps := total_aps;
        vertical_consideration := vertical_consideration |}.

(** The fields [__init__] sets. *)
Record Self : Type := {
  channels_24ghz : list (Z * (Z * bool));
  channels_5ghz : list (Z * (Z * Z));
  channel_widths : list (Z * string);
  report_file : string
}.

(** [__init__(self)] *)
Definition __init__ : Self :=
  {| channels_24ghz := [(1, (2412, true)); (6, (2437, true)); (11, (2462, true))];
     channels_5ghz := [(36, (5180, 20)); (40, (5200, 20)); (44, (5220, 20));
                       (48, (5240, 20)); (149, (5745, 20)); (153, (5765, 20));
                       (157, (5785, 20)); (161, (5805, 20))];
     channel_widths := [(20, "20 MHz - Maximum APs, minimum throughput");
                        (40, "40 MHz - Balanced APs and throughput");
                        (80, "80 MHz - Fewer APs, higher throughput")];
     report_file := "channel_optimization_report.json" |}.

(** A [for] loop over [l] whose body updates the loop state [s] and may
    raise. *)
Fixpoint for_each {M : Type → Type} `{!MRet M, !MBind M} {S A : Type}
    (l : list A) (body : S → A → M S) (s : S) : M S :=
  match l with
  | [] => mret s
  | a :: l => s' ← body s a; for_each l body s'
  end.

Definition len {A} (l : list A) : Z := Z.of_nat (length l).

(** [_create_channel_pattern(self, channels, width)] *)
Definition _create_channel_pattern (channels : list Z) (width : Z) : result (list Z) :=
  if width <=? len channels then Ok channels
  else
    for_each (range width)
      (fun pattern i =>
         c ← py_mod i (len channels) ≫= index channels;
         Ok (pattern ++ [c]))
      [].

(** [_calculate_tx_power(self, coverage_radius)] *)
Definition _calculate_tx_power (coverage_radius : Z) : string :=
  if coverage_radius <=? 20 then "Low (10-13 dBm)"
  else if coverage_radius <=? 30 then "Medium (14-17 dBm)"
  else "High (18-20 dBm)".

Record ApConfig : Type := {
  ap_id : string;
  position : Z * Z;   (* row, col *)
  channel : Z;
  band : string;
  tx_power : string
}.

(** [f"{n:03d}"]: the decimal digits, padded with zeros after the sign to
    three characters. *)
Definition format_03d (n : Z) : string :=
  let sign := if n <? 0 then "-" else "" in
  let digits := pretty (Z.abs n) in
  let pad := (3 - String.length sign - String.length digits)%nat in
  sign +:+ String.concat "" (replicate pad "0") +:+ digits.

(** [generate_channel_plan(self, layout_analysis, use_5ghz=True)] *)
Definition generate_channel_plan (self : Self) (layout_analysis : Layout)
    (use_5ghz : bool) : result (list ApConfig) :=
  let total_aps := total_aps layout_analysis in
  let ap_grid := ap_grid layout_analysis in
  let channel_plan : list ApConfig := [] in
  channel_pattern ←
    (if use_5ghz then
       let channels := (channels_5ghz self).*1 in
       _create_channel_pattern channels (grid_width ap_grid)
     else
       let channels := [1; 6; 11] in
       _create_channel_pattern channels (grid_width ap_grid));
  let ap_id := 1 in
  '(channel_plan, _) ←
    for_each (range (grid_length ap_grid))
      (fun st row =>
         for_each (range (grid_width ap_grid))
           (fun '(channel_plan, ap_id) col =>
              channel_index ←
                py_mod (col + row * grid_width ap_grid) (len channel_pattern);
              channel ← index channel_pattern channel_index;
              let ap_config :=
                {| ap_id := "AP-" +:+ format_03d ap_id;
                   position := (row, col);
                   channel := channel;
                   band := if use_5ghz then "5GHz" else "2.4GHz";
                   tx_power :=
                     _calculate_tx_power (coverage_radius layout_analysis) |} in
              Ok (channel_plan ++ [ap_config], ap_id + 1))
           st)
      (channel_plan, ap_id);
  Ok channel_plan.

(** [d.get(k, default)] and [d[k] = v] on a dictionary kept as the list of
    its items in insertion order. *)
Fixpoint dict_get {V} (d : list (string * V)) (k : string) (default : V) : V :=
  match d with
  | [] => default
  | (k', v) :: d => if String.eqb k' k then v else dict_get d k default
  end.

Fixpoint dict_set {V} (k : string) (v : V) (d : list (string * V)) : list (string * V) :=
  match d with
  | [] => [(k, v)]
  | (k', v') :: d =>
      if String.eqb k' k then (k, v) :: d else (k', v') :: dict_set k v d
  end.

Record DeviceEntry : Type := {
  count : Z;
  bandwidth_per_device : num;
  total_bandwidth : num
}.

(** The dictionary [calculate_capacity_requirements] returns. *)
Record Capacity : Type := {
  total_devices : Z;
  device_breakdown : list (string * DeviceEntry);
  total_bandwidth_required : num;
  aps_for_capacity : Z
}.

(** Device bandwidth requirements (Mbps). *)
Definition bandwidth_table : list (string * num) :=
  [("handheld_scanner", PyFloat 0.5);
   ("tablet", PyInt 2);
   ("laptop", PyInt 5);
   ("voice_device", PyFloat 0.1);
   ("iot_sensor", PyFloat 0.05);
   ("mobile_robot", PyInt 1)].

(** [calculate_capacity_requirements(self, num_devices, device_types)];
    [device_types] is given by its items. *)
Definition calculate_capacity_requirements (num_devices : Z)
    (device_types : list (string * Z)) : result Capacity :=
  let bandwidth_per_device := bandwidth_table in
  '(total_bandwidth, device_breakdown) ←
    for_each device_types
      (fun '(total_bandwidth, device_breakdown) '(device_type, count) =>
         bandwidth ←
           py_mul (dict_get bandwidth_per_device device_type (PyInt 1)) (PyInt count);
         total_bandwidth ← py_add total_bandwidth bandwidth;
         Ok (total_bandwidth,
             dict_set device_type
               {| count := count;
                  bandwidth_per_device :=
                    dict_get bandwidth_per_device device_type (PyInt 1);
                  total_bandwidth := bandwidth |}
               device_breakdown))
      (PyInt 0, []);
  total_bandwidth ← py_mul total_bandwidth (PyFloat 1.3);
  aps_for_capacity ← py_truediv total_bandwidth (PyInt 150) ≫= py_ceil;
  Ok {| total_devices := num_devices;
        device_breakdown := device_breakdown;
        total_bandwidth_required := py_round2 total_bandwidth;
        aps_for_capacity := aps_for_capacity |}.

Record InterferenceSource : Type := {
  source_type : string;
  frequency : string;
  impact : string;
  mitigation : string
}.

Definition interference_sources : list InterferenceSource :=
  [ {| source_type := "Bluetooth devices";
       frequency := "2.4 GHz";
       impact := "Low";
       mitigation := "Use 5GHz band for critical devices" |};
    {| source_type := "Microwave ovens (break rooms)";
       frequency := "2.45 GHz";
       impact := "High";
       mitigation := "Avoid channel 9-11 near break areas" |};
    {| source_type := "Wireless barcode scanners";
       frequency := "2.4 GHz";
       impact := "Medium";
       mitigation := "Implement band steering to 5GHz" |};
    {| source_type := "Security cameras (wireless)";
       frequency := "2.4/5 GHz";
       impact := "Medium";
       mitigation := "Use wired backhaul for cameras" |};
    {| source_type := "Industrial equipment (variable frequency drives)";
       frequency := "Broadband noise";
       impact := "Low-Medium";
       mitigation := "Ensure proper equipment shielding" |} ].

Record ExecutiveSummary : Type := {
  recommended_aps : Z;
  primary_band : string;
  secondary_band : string;
  estimated_coverage : string
}.

Record ChannelPlanSummary : Type := {
  plan_total_aps : Z;
  channels_used : list Z;
  sample_assignments : list ApConfig
}.

(** The dictionary [generate_optimization_report] builds and persists. *)
Record Report : Type := {
  warehouse : string;
  timestamp : string;
  executive_summary : ExecutiveSummary;
  layout_analysis : Layout;
  capacity_analysis : Capacity;
  channel_plan_summary : ChannelPlanSummary;
  interference_analysis : list InterferenceSource;
  recommendations : list string
}.

(** *** The world outside the interpreter

    The random source is the sequence of its raw outcomes, read in order;
    the clock is the instant of the run in ISO-8601; a file holds the
    report that [json.dump] wrote into it ([json.load] gives it back: the
    report's integers, floats, strings, lists and dictionaries survive the
    round trip unchanged); standard output is the list of the texts
    printed. *)
Record World : Type := {
  random_draws : nat → Z;
  random_used : nat;
  now_isoformat : string;
  files : gmap string Report;
  stdout : list string
}.

(** A computation that acts on the world and may raise. *)
Definition Run (A : Type) : Type := World → result A * World.

#[export] Instance run_ret : MRet Run := fun A a w => (Ok a, w).
#[export] Instance run_bind : MBind Run :=
  fun A B f m w =>
    match m w with
    | (Ok a, w') => f a w'
    | (Raise e, w') => (Raise e, w')
    end.

(** A call of a method that does not touch the world. *)
Definition call {A} (r : result A) : Run A := fun w => (r, w).

Definition print (text : string) : Run unit :=
  fun w =>
    (Ok (),
     {| random_draws := random_draws w; random_used := random_used w;
        now_isoformat := now_isoformat w; files := files w;
        stdout := stdout w ++ [text] |}).

(** [datetime.datetime.now().isoformat()] *)
Definition datetime_now_isoformat : Run string :=
  fun w => (Ok (now_isoformat w), w).

(** [with open(path, 'w') as f: json.dump(report, f, indent=2)] *)
Definition json_dump_file (path : string) (report : Report) : Run unit :=
  fun w =>
    (Ok (),
     {| random_draws := random_draws w; random_used := random_used w;
        now_isoformat := now_isoformat w;
        files := <[path := report]> (files w);
        stdout := stdout w |}).

(** [with open(path, 'r') as f: json.load(f)] *)
Definition json_load_file (path : string) : Run Report :=
  fun w =>
    match files w !! path with
    | Some report => (Ok report, w)
    | None => (Raise (FileNotFoundError path), w)
    end.

(** [random._randbelow(n)] for [0 < n]: the next outcome of the random
    source, which lies in [range(n)]. *)
Definition randbelow (n : Z) : Run Z :=
  fun w =>
    (Ok (random_draws w (random_used w) mod n),
     {| random_draws := random_draws w; random_used := Datatypes.S (random_used w);
        now_isoformat := now_isoformat w; files := files w;
        stdout := stdout w |}).

(** [random.randint(a, b)], that is [randrange(a, b + 1)]. *)
Definition random_randint (a b : Z) : Run Z :=
  let width := b + 1 - a in
  if 0 <? width then j ← randbelow width; mret (a + j)
  else call (Raise ValueError).

(** [random.sample(population, k)] as the library computes it for a
    population of at most 21 items: [k] draws from a pool in which each
    selected item is overwritten by the last item not yet selected. *)
Definition random_sample {A} (population : list A) (k : Z) : Run (list A) :=
  let n := len population in
  if negb ((0 <=? k) && (k <=? n)) then call (Raise ValueError)
  else
    '(result, _) ←
      for_each (range k)
        (fun '(result, pool) i =>
           j ← randbelow (n - i);
           selected ← call (index pool j);
           vacancy ← call (index pool (n - i - 1));
           mret (result ++ [selected], <[Z.to_nat j := vacancy]> pool))
        ([], population);
    mret result.

(** [detect_interference_sources(self)] *)
Definition detect_interference_sources : Run (list InterferenceSource) :=
  k ← random_randint 2 4;
  random_sample interference_sources k.

Record DeviceInfo : Type := {
  info_total_devices : Z;
  info_device_types : list (string * Z)
}.

Definition nl : string := String (Ascii.ascii_of_nat 10) EmptyString.

(** *** The order in which a set yields its items

    [list(set(xs))] lists the distinct items of [xs] in the order of the slots
    of CPython's hash table for sets (Objects/setobject.c, CPython 3.7 and
    later): a table of 8 slots that is rebuilt with more slots when three
    fifths of it are in use, open addressing with 9 linear probes and then a
    perturbed jump. *)

(** [hash(x)] of an [int]. *)
Definition py_hash (x : Z) : Z :=
  let h := Z.sgn x * (Z.abs x mod (2 ^ 61 - 1)) in
  if h =? -1 then -2 else h.

(** The slots [i], [i + 1], ..., [i + n] read in this order: the first that
    is unused, or that holds [key]. *)
Fixpoint set_scan (table : list (option Z)) (key : Z) (i n : nat)
    : option (nat * bool) :=
  match table !! i with
  | None => None
  | Some None => Some (i, false)
  | Some (Some k) =>
      if k =? key then Some (i, true)
      else match n with
           | O => None
           | Datatypes.S n => set_scan table key (Datatypes.S i) n
           end
  end.

(** The probe sequence of [set_add_entry] and [set_insert_clean]. The loop of
    the C code has no bound: a table always has an unused slot and the
    sequence visits every slot; [fuel] bounds it here. *)
Fixpoint set_probe (table : list (option Z)) (mask key i perturb : Z) (fuel : nat)
    : option (nat * bool) :=
  match fuel with
  | O => None
  | Datatypes.S fuel =>
      let probes := if i + 9 <=? mask then 9%nat else 0%nat in
      match set_scan table key (Z.to_nat i) probes with
      | Some found => Some found
      | None =>
          let perturb := Z.shiftr perturb 5 in
          set_probe table mask key (Z.land (i * 5 + 1 + perturb) mask) perturb fuel
      end
  end.

Definition set_find (table : list (option Z)) (key : Z) : option (nat * bool) :=
  let mask := len table - 1 in
  let hash := py_hash key mod 2 ^ 64 in
  set_probe table mask key (Z.land hash mask) hash (length table + 14).

(** [set_insert_clean(table, mask, key, hash)] *)
Definition set_insert_clean (table : list (option Z)) (key : Z) : list (option Z) :=
  match set_find table key with
  | Some (slot, false) => <[slot := Some key]> table
  | _ => table
  end.

(** The smallest size, from 8 on by doubling, that exceeds [minused]. *)
Fixpoint set_newsize (size minused : Z) (fuel : nat) : Z :=
  match fuel with
  | O => size
  | Datatypes.S fuel =>
      if size <=? minused then set_newsize (size * 2) minused fuel else size
  end.

(** [set_table_resize(so, minused)]: the keys are put into the new table in
    the order of the slots of the old one. *)
Definition set_table_resize (table : list (option Z)) (minused : Z) : list (option Z) :=
  let newsize := set_newsize 8 minused (Z.to_nat minused) in
  foldl set_insert_clean (replicate (Z.to_nat newsize) None) (omap id table).

(** [set_add_entry(so, key, hash)] *)
Definition set_add (table : list (option Z)) (key : Z) : list (option Z) :=
  match set_find table key with
  | Some (slot, false) =>
      let table := <[slot := Some key]> table in
      let used := len (omap id table) in
      let mask := len table - 1 in
      if used * 5 <? mask * 3 then table
      else set_table_resize table (if 50000 <? used then used * 2 else used * 4)
  | _ => table
  end.

(** [list(set(xs))] *)
Definition list_of_set (xs : list Z) : list Z :=
  omap id (foldl set_add (replicate 8 None) xs).

(** [generate_optimization_report(self, warehouse_name, dimensions, device_info)] *)
Definition generate_optimization_report (self : Self) (warehouse_name : string)
    (dimensions : Dimensions) (device_info : DeviceInfo) : Run Report :=
  print (nl +:+ "Analyzing wireless requirements for " +:+ warehouse_name +:+ "...");;
  layout ← call (analyze_warehouse_layout (dim_width dimensions)
                   (dim_length dimensions) (dim_height dimensions));
  channel_plan ← call (generate_channel_plan self layout true);
  interference ← detect_interference_sources;
  capacity ← call (calculate_capacity_requirements
                     (info_total_devices device_info)
                     (info_device_types device_info));
  let final_ap_count := Z.max (total_aps layout) (aps_for_capacity capacity) in
  timestamp ← datetime_now_isoformat;
  let report :=
    {| warehouse := warehouse_name;
       timestamp := timestamp;
       executive_summary :=
         {| recommended_aps := final_ap_count;
            primary_band := "5 GHz";
            secondary_band := "2.4 GHz (IoT and legacy devices)";
            estimated_coverage := "99.9%" |};
       layout_analysis := layout;
       capacity_analysis := capacity;
       channel_plan_summary :=
         {| plan_total_aps := len channel_plan;
            channels_used := list_of_set (channel <$> channel_plan);
            sample_assignments := take 5 channel_plan |};
       interference_analysis := interference;
       recommendations :=
         [ "Deploy " +:+ pretty final_ap_count +:+ " access points in a grid pattern";
           "Use 5 GHz as primary band with DFS channels enabled";
           "Implement band steering to move capable devices to 5 GHz";
           "Configure 20 MHz channels for maximum capacity";
           "Set TX power to medium (14-17 dBm) for optimal coverage";
           "Enable 802.11k/v/r for seamless roaming";
           "Implement QoS with voice devices on highest priority" ] |} in
  json_dump_file (report_file self) report;;
  mret report.

(** The scenario of [main()]. *)
Definition example_name : string := "FC-EXAMPLE-01".
Definition example_dimensions : Dimensions :=
  {| dim_width := PyInt 200; dim_length := PyInt 300; dim_height := PyInt 12 |}.
Definition example_devices : DeviceInfo :=
  {| info_total_devices := 500;
     info_device_types :=
       [("handheld_scanner", 200); ("tablet", 50); ("laptop", 30);
        ("voice_device", 150); ("iot_sensor", 50); ("mobile_robot", 20)] |}.

End ChannelOptimizer.
Import ChannelOptimizer.

(** ** The two analyses, statement by statement in the world

    A method runs in the world: any of its statements may read the random
    source or the clock, print, or touch the files. Here the bodies of
    [analyze_warehouse_layout] and [calculate_capacity_requirements] are
    written as such runs, one step for each operation of the source, so that
    what they do to the world, and what they take from it, can be stated. *)

Module Stepwise.

(** [analyze_warehouse_layout(self, width_m, length_m, height_m)] *)
Definition analyze_warehouse_layout (width_m length_m height_m : num) : Run Layout :=
  let coverage_radius := 25 in
  grid_spacing ← call (py_mul (PyInt coverage_radius) (PyFloat 1.4));
  width_cells ← call (py_truediv width_m grid_spacing);
  aps_width ← call (py_ceil width_cells);
  length_cells ← call (py_truediv length_m grid_spacing);
  aps_length ← call (py_ceil length_cells);
  let total_aps := aps_width * aps_length in
  let vertical_consideration :=
    if py_gt height_m (PyInt 10) then high_ceiling else standard_ceiling in
  mret {| dimensions := {| dim_width := width_m; dim_length := length_m;
                           dim_height := height_m |};
          coverage_radius := coverage_radius;
          grid_spacing := grid_spacing;
          ap_grid := {| grid_width := aps_width; grid_length := aps_length |};
          total_aps := total_aps;
          vertical_consideration := vertical_consideration |}.

(** [calculate_capacity_requirements(self, num_devices, device_types)] *)
Definition calculate_capacity_requirements (num_devices : Z)
    (device_types : list (string * Z)) : Run Capacity :=
  let bandwidth_per_device := bandwidth_table in
  '(total_bandwidth, device_breakdown) ←
    for_each device_types
      (fun '(total_bandwidth, device_breakdown) '(device_type, count) =>
         bandwidth ←
           call (py_mul (dict_get bandwidth_per_device device_type (PyInt 1))
                   (PyInt count));
         total_bandwidth ← call (py_add total_bandwidth bandwidth);
         mret (total_bandwidth,
               dict_set device_type
                 {| count := count;
                    bandwidth_per_device :=
                      dict_get bandwidth_per_device device_type (PyInt 1);
                    total_bandwidth := bandwidth |}
                 device_breakdown))
      (PyInt 0, []);
  total_bandwidth ← call (py_mul total_bandwidth (PyFloat 1.3));
  cells ← call (py_truediv total_bandwidth (PyInt 150));
  aps_for_capacity ← call (py_ceil cells);
  mret {| total_devices := num_devices;
          device_breakdown := device_breakdown;
          total_bandwidth_required := py_round2 total_bandwidth;
          aps_for_capacity := aps_for_capacity |}.

End Stepwise.

(** ** visualize_plan.py *)

Module Visualizer.

(** [s * n] for a list [s]. *)
Definition list_repeat {A} (s : list A) (n : Z) : list A :=
  mjoin (replicate (Z.to_nat n) s).

(** [a // b] on two [int]s. *)
Definition py_floordiv (a b : Z) : result Z :=
  if b =? 0 then Raise ZeroDivisionError else Ok (a / b).

(** [f"{text:>w}"]: [text] pushed to the right of a field of [w]
    characters; numbers are aligned this way by default. *)
Definition right_align (w : nat) (text : string) : string :=
  String.concat "" (replicate (w - String.length text) " ") +:+ text.

Definition string_repeat (s : string) (n : nat) : string :=
  String.concat "" (replicate n s).

(** The decimal digits of a natural number in groups of three, from the
    right, separated by commas. *)
Fixpoint group_from_right (rev_digits : list Ascii.ascii) (fuel : nat) : list Ascii.ascii :=
  match rev_digits, fuel with
  | a :: b :: c :: (d :: _) as rest, Datatypes.S fuel =>
      a :: b :: c :: ","%char :: group_from_right rest fuel
  | _, _ => rev_digits
  end.

Definition group_thousands (digits : string) : string :=
  let cs := String.list_ascii_of_string digits in
  String.string_of_list_ascii (rev (group_from_right (rev cs) (length cs))).

(** [f"{n:,}"] for an [int]. *)
Definition format_int_comma (n : Z) : string :=
  (if n <? 0 then "-" else "") +:+ group_thousands (pretty (Z.abs n)).

(** [f"{x:.1f}"] for a [float]: the exact binary value rounded to one
    decimal, ties to even. *)
Definition format_float_1f (x : float) : string :=
  match Prim2SF x with
  | S754_nan => "nan"
  | S754_infinity s => if s then "-inf" else "inf"
  | S754_zero s => if s then "-0.0" else "0.0"
  | S754_finite s m e =>
      let tenths := if 0 <=? e then Zpos m * 2 ^ e * 10
                    else round_half_even (Zpos m * 10) (2 ^ (- e)) in
      (if s then "-" else "") +:+ pretty (tenths / 10) +:+ "." +:+ pretty (tenths mod 10)
  end.

(** [min(xs)] of a sequence of [int]s. *)
Definition py_min (xs : list Z) : result Z :=
  match xs with
  | [] => Raise ValueError
  | x :: xs => Ok (foldl Z.min x xs)
  end.

Section Render.

(** [format(x, ",")] of a [float] follows the shortest decimal that reads
    back as [x]; that algorithm is left abstract. *)
Variable format_float_comma : float → string.

Definition format_num_comma (x : num) : string :=
  match x with
  | PyInt z => format_int_comma z
  | PyFloat f => format_float_comma f
  end.

(** The body of [visualize_channel_plan] after the report is loaded. *)
Definition render (report : Report) : Run unit :=
  let layout := layout_analysis report in
  let width := grid_width (ap_grid layout) in
  let length := grid_length (ap_grid layout) in
  print (nl +:+ string_repeat "=" 60);;
  print "CHANNEL ASSIGNMENT VISUALIZATION";;
  print (string_repeat "=" 60);;
  print ("Facility: " +:+ warehouse report);;
  print ("Grid Size: " +:+ pretty width +:+ " x " +:+ pretty length +:+ " APs");;
  print ("Primary Band: " +:+ primary_band (executive_summary report));;
  print (nl +:+ "Channel Layout (5 GHz):");;
  print (string_repeat "-" 60);;
  let channels_used := channels_used (channel_plan_summary report) in
  copies ← call (py_floordiv (width * length) (len channels_used));
  let channel_pattern := list_repeat channels_used (copies + 1) in
  print (nl +:+ "Channel Grid Pattern:");;
  print "(Each number represents an AP's channel assignment)";;
  print "";;
  for_each (range (Z.min length 10))
    (fun _ row =>
       row_channels ←
         for_each (range (Z.min width 15))
           (fun row_channels col =>
              let idx := row * width + col in
              channel ← call (py_mod idx (len channel_pattern)
                                ≫= index channel_pattern);
              mret (row_channels ++ [right_align 3 (pretty channel)]))
           [];
       print ("Row " +:+ right_align 2 (pretty (row + 1)) +:+ ": "
              +:+ String.concat " " row_channels))
    ();;
  (if (10 <? length) || (15 <? width)
   then print (nl +:+ "... (showing partial grid for clarity)")
   else mret ());;
  print (nl +:+ string_repeat "-" 60);;
  print "CHANNEL USAGE SUMMARY:";;
  print ("Unique channels used: " +:+ pretty (len channels_used));;
  let sorted_channels := merge_sort Z.le channels_used in
  print ("Channels: " +:+ String.concat ", " (pretty <$> sorted_channels));;
  min_separation ←
    call (gaps ← for_each (range (len sorted_channels - 1))
                   (fun gaps i =>
                      hi ← index sorted_channels (i + 1);
                      lo ← index sorted_channels i;
                      Ok (gaps ++ [hi - lo]))
                   [];
          py_min gaps);
  print ("Minimum channel separation: " +:+ pretty (min_separation * 5) +:+ " MHz");;
  print (nl +:+ string_repeat "-" 60);;
  print "COVERAGE STATISTICS:";;
  let dimensions := dimensions layout in
  coverage_area ← call (py_mul (dim_width dimensions) (dim_length dimensions));
  print ("Total area: " +:+ format_num_comma coverage_area +:+ " square meters");;
  print ("APs deployed: " +:+ pretty (width * length));;
  area_per_ap ← call (py_truediv coverage_area (PyInt (width * length)));
  print ("Area per AP: "
         +:+ match area_per_ap with
             | PyFloat f => format_float_1f f
             | PyInt z => pretty z +:+ ".0"
             end
         +:+ " square meters");;
  print ("Estimated coverage: " +:+ estimated_coverage (executive_summary report));;
  print (nl +:+ string_repeat "=" 60).

(** [visualize_channel_plan(report_file="channel_optimization_report.json")] *)
Definition visualize_channel_plan (report_file : string) : Run unit :=
  fun w =>
    match json_load_file report_file w with
    | (Raise (FileNotFoundError _), w') =>
        print "No report found. Run channel_optimizer.py first." w'
    | (Raise e, w') => (Raise e, w')
    | (Ok report, w') => render report w'
    end.

End Render.

End Visualizer.
Import Visualizer.

(** ** Closed forms used in the proofs *)

Definition band_channels (use_5ghz : bool) : list Z :=
  if use_5ghz then [36; 40; 44; 48; 149; 153; 157; 161] else [1; 6; 11].

(** The grid cells in the order of the two nested loops. *)
Definition cells (rows cols : Z) : list (Z * Z) :=
  range rows ≫= fun row : Z => (fun col : Z => (row, col)) <$> range cols.

(** The configuration appended for the cell [rc] when [ap_id] is [id]. *)
Definition cell_config (layout : Layout) (use_5ghz : bool) (pattern : list Z)
    (id : Z) (rc : Z * Z) : ApConfig :=
  {| ap_id := "AP-" +:+ format_03d id;
     position := rc;
     channel :=
       pattern !!! Z.to_nat ((rc.2 + rc.1 * grid_width (ap_grid layout)) mod len pattern);
     band := if use_5ghz then "5GHz" else "2.4GHz";
     tx_power := _calculate_tx_power (coverage_radius layout) |}.

(** The body of the inner loop of [generate_channel_plan], on a cell. *)
Definition plan_step (layout : Layout) (use_5ghz : bool) (pattern : list Z)
    (st : list ApConfig * Z) (rc : Z * Z) : result (list ApConfig * Z) :=
  let '(channel_plan, ap_id) := st in
  channel_index ← py_mod (rc.2 + rc.1 * grid_width (ap_grid layout)) (len pattern);
  channel ← index pattern channel_index;
  Ok (channel_plan ++
        [ {| ap_id := "AP-" +:+ format_03d ap_id;
             position := (rc.1, rc.2);
             channel := channel;
             band := if use_5ghz then "5GHz" else "2.4GHz";
             tx_power := _calculate_tx_power (coverage_radius layout) |} ],
      ap_id + 1).

(** ** The capacity estimate as the specification words it *)

Module Spec.

(** lookup(type, default 1) *)
Definition weight (device_type : string) : num :=
  dict_get bandwidth_table device_type (PyInt 1).

(** bandwidth = lookup(type, default 1) × count *)
Definition type_bandwidth (item : string * Z) : result num :=
  py_mul (weight item.1) (PyInt item.2).

(** The sum across types, taken from the left. *)
Fixpoint sum_from (acc : num) (bandwidths : list num) : result num :=
  match bandwidths with
  | [] => Ok acc
  | b :: bandwidths => acc' ← py_add acc b; sum_from acc' bandwidths
  end.

Definition record_type (breakdown : list (string * DeviceEntry))
    (entry : string * Z * num) : list (string * DeviceEntry) :=
  dict_set entry.1.1
    {| count := entry.1.2;
       bandwidth_per_device := weight entry.1.1;
       total_bandwidth := entry.2 |}
    breakdown.

(** For each device type, bandwidth = lookup(type, default 1) × count; sum
    across types, then multiply the sum by 1.3; AP count = ceil(total
    bandwidth ÷ 150). *)
Definition capacity (num_devices : Z) (device_types : list (string * Z)) : result Capacity :=
  bandwidths ← mapM type_bandwidth device_types;
  raw ← sum_from (PyInt 0) bandwidths;
  total ← py_mul raw (PyFloat 1.3);
  aps ← py_truediv total (PyInt 150) ≫= py_ceil;
  Ok {| total_devices := num_devices;
        device_breakdown := foldl record_type [] (zip device_types bandwidths);
        total_bandwidth_required := py_round2 total;
        aps_for_capacity := aps |}.

End Spec.

(** The state of the world after one reading of the random source. *)
Definition after_draw (w : World) : World :=
  {| random_draws := random_draws w; random_used := Datatypes.S (random_used w);
     now_isoformat := now_isoformat w; files := files w; stdout := stdout w |}.

(** One iteration of the selection loop of [random.sample]. *)
Definition sample_step {A} (population : list A)
    : list A * list A → Z → Run (list A * list A) :=
  fun '(result, pool) i =>
    j ← randbelow (len population - i);
    selected ← call (index pool j);
    vacancy ← call (index pool (len population - i - 1));
    mret (result ++ [selected], <[Z.to_nat j := vacancy]> pool).

#[local] Instance interference_source_inhabited : Inhabited InterferenceSource :=
  populate {| source_type := ""; frequency := ""; impact := ""; mitigation := "" |}.

(** ** Definitions used in the statements *)

(** A string of digits as [pretty] writes a natural number: not empty, and
    with a leading zero only when it is ["0"]. *)
Definition proper_digits (s : string) : Prop :=
  s ≠ "" ∧ ∀ s', s = String "0" s' → s' = "".

Definition zeros (k : nat) : string := String.concat "" (replicate k "0").

(** The entry that the loop records for a device type. *)
Definition breakdown_entry (item : string * Z * num) : string * DeviceEntry :=
  (item.1.1, {| count := item.1.2;
                bandwidth_per_device := Spec.weight item.1.1;
                total_bandwidth := item.2 |}).

(** The line [generate_optimization_report] prints first. *)
Definition analyzing_line (warehouse_name : string) : string :=
  nl +:+ "Analyzing wireless requirements for " +:+ warehouse_name +:+ "...".

Definition printed (text : string) (w : World) : World :=
  {| random_draws := random_draws w; random_used := random_used w;
     now_isoformat := now_isoformat w; files := files w;
     stdout := stdout w ++ [text] |}.

(** A small facility: one access point, ten devices of an unlisted type. *)
Definition small_dimensions : Dimensions :=
  {| dim_width := PyInt 30; dim_length := PyInt 30; dim_height := PyInt 5 |}.
Definition small_layout : Layout :=
  {| dimensions := small_dimensions; coverage_radius := 25;
     grid_spacing := PyFloat 35;
     ap_grid := {| grid_width := 1; grid_length := 1 |};
     total_aps := 1; vertical_consideration := standard_ceiling |}.
Definition small_devices : DeviceInfo :=
  {| info_total_devices := 10; info_device_types := [("drone", 10)] |}.
Definition small_capacity : Capacity :=
  {| total_devices := 10;
     device_breakdown :=
       [("drone", {| count := 10; bandwidth_per_device := PyInt 1;
                     total_bandwidth := PyInt 10 |})];
     total_bandwidth_required := PyFloat 13;
     aps_for_capacity := 1 |}.
Definition quiet_world : World :=
  {| random_draws := fun _ => 0; random_used := 0;
     now_isoformat := "2025-01-01T00:00:00"; files := ∅; stdout := [] |}.

(** The world after the lines [texts] have been printed. *)
Definition printed_lines (texts : list string) (w : World) : World :=
  {| random_draws := random_draws w; random_used := random_used w;
     now_isoformat := now_isoformat w; files := files w;
     stdout := stdout w ++ texts |}.

(** The text of one cell of the grid and of one row, for the pattern that
    [visualize_channel_plan] replays. *)
Definition cell_text (pattern : list Z) (width row col : Z) : string :=
  right_align 3 (pretty (pattern !!! Z.to_nat ((row * width + col) mod len pattern))).

Definition row_text (pattern : list Z) (width row : Z) : string :=
  "Row " +:+ right_align 2 (pretty (row + 1)) +:+ ": "
  +:+ String.concat " " (cell_text pattern width row <$> range (Z.min width 15)).

(** The lines [visualize_channel_plan] prints before it reads the channels. *)
Definition header_lines (report : Report) : list string :=
  [nl +:+ string_repeat "=" 60;
   "CHANNEL ASSIGNMENT VISUALIZATION";
   string_repeat "=" 60;
   "Facility: " +:+ warehouse report;
   "Grid Size: " +:+ pretty (grid_width (ap_grid (layout_analysis report)))
     +:+ " x " +:+ pretty (grid_length (ap_grid (layout_analysis report)))
     +:+ " APs";
   "Primary Band: " +:+ primary_band (executive_summary report);
   nl +:+ "Channel Layout (5 GHz):";
   string_repeat "-" 60].

(** The three lines above the grid. *)
Definition grid_heading : list string :=
  [nl +:+ "Channel Grid Pattern:";
   "(Each number represents an AP's channel assignment)";
   ""].


(** A facility of no width: a grid of no columns. *)
Definition empty_dimensions : Dimensions :=
  {| dim_width := PyInt 0; dim_length := PyInt 300; dim_height := PyInt 12 |}.
Definition empty_layout : Layout :=
  {| dimensions := empty_dimensions; coverage_radius := 25;
     grid_spacing := PyFloat 35;
     ap_grid := {| grid_width := 0; grid_length := 9 |};
     total_aps := 0; vertical_consideration := high_ceiling |}.


(** * Properties *)

(** ** Loops in the [result] monad *)

Section ForEach.
Context {S A : Type}.
Implicit Types (body : S → A → result S) (l : list A) (s : S).

Lemma for_each_app body l1 l2 s :
  for_each (l1 ++ l2) body s = for_each l1 body s ≫= for_each l2 body.
Proof.
  revert s. induction l1 as [|a l1 IH]; intros s; simpl; [done|].
  destruct (body s a) as [s'|e]; simpl; [apply IH|done].
Qed.

Lemma for_each_fmap {B} (g : B → A) body (l : list B) s :
  for_each (g <$> l) body s = for_each l (fun s b => body s (g b)) s.
Proof.
  revert s. induction l as [|b l IH]; intros s; simpl; [done|].
  destruct (body s (g b)); simpl; [apply IH|done].
Qed.

Lemma for_each_bind {B} (f : B → list A) body (l : list B) s :
  for_each (l ≫= f) body s = for_each l (fun s b => for_each (f b) body s) s.
Proof.
  revert s. induction l as [|b l IH]; intros s; simpl; [done|].
  rewrite for_each_app.
  destruct (for_each (f b) body s); simpl; [apply IH|done].
Qed.
End ForEach.

(** A loop that appends one computed item per iteration. *)
Lemma for_each_collect {A C} (f : A → result C) (g : A → C) (l : list A) (acc : list C) :
  (∀ a, a ∈ l → f a = Ok (g a)) →
  for_each l (fun acc a => c ← f a; Ok (acc ++ [c])) acc = Ok (acc ++ (g <$> l)).
Proof.
  revert acc. induction l as [|a l IH]; intros acc Hf; simpl.
  - by rewrite app_nil_r.
  - rewrite (Hf a) by left. simpl. rewrite IH.
    + by rewrite <- app_assoc.
    + intros b Hb. apply Hf. by right.
Qed.

Lemma len_nonneg {A} (l : list A) : 0 ≤ len l.
Proof. unfold len. lia. Qed.

Lemma len_app {A} (l1 l2 : list A) : len (l1 ++ l2) = len l1 + len l2.
Proof. unfold len. rewrite length_app. lia. Qed.

Lemma len_range n : len (range n) = Z.max 0 n.
Proof. unfold len, range. rewrite length_fmap, length_seq. lia. Qed.

Lemma len_fmap_range {B} (f : Z → B) n : len (f <$> range n) = Z.max 0 n.
Proof. unfold len. rewrite length_fmap. apply len_range. Qed.

Lemma elem_of_range n i : i ∈ range n ↔ 0 ≤ i < n.
Proof.
  unfold range. rewrite list_elem_of_fmap. split.
  - intros (k & -> & Hk). apply elem_of_seq in Hk. lia.
  - intros Hi. exists (Z.to_nat i). split; [lia|]. apply elem_of_seq. lia.
Qed.

Lemma range_lookup n (k : nat) : Z.of_nat k < n → range n !! k = Some (Z.of_nat k).
Proof.
  intros Hk. unfold range. rewrite list_lookup_fmap, lookup_seq_lt by lia. done.
Qed.

Lemma index_ok {A} `{!Inhabited A} (l : list A) (i : Z) :
  0 ≤ i < len l → index l i = Ok (l !!! Z.to_nat i).
Proof.
  unfold index, len. intros Hi.
  destruct (Z.ltb_spec i 0); [lia|].
  destruct (Z.leb_spec 0 i); [|lia].
  destruct (Z.ltb_spec i (Z.of_nat (length l))); [|lia]. simpl.
  destruct (lookup_lt_is_Some_2 l (Z.to_nat i)) as [a Ha]; [lia|].
  rewrite Ha. by rewrite (list_lookup_total_correct _ _ _ Ha).
Qed.

Lemma py_mod_ok a b : b ≠ 0 → py_mod a b = Ok (a mod b).
Proof. unfold py_mod. intros Hb. by destruct (Z.eqb_spec b 0). Qed.

(** ** The exceptions of the arithmetic *)

Lemma float_of_int_raises z e : float_of_int z = Raise e → e = OverflowError.
Proof. unfold float_of_int. by destruct (PrimFloat.is_infinity _); intros [=]. Qed.

Lemma py_mul_raises a b e : py_mul a b = Raise e → e = OverflowError.
Proof.
  destruct a as [x|f], b as [y|g]; simpl; try done.
  - destruct (float_of_int x) eqn:Hx; simpl; [done|].
    intros [= <-]. eauto using float_of_int_raises.
  - destruct (float_of_int y) eqn:Hy; simpl; [done|].
    intros [= <-]. eauto using float_of_int_raises.
Qed.

Lemma py_add_raises a b e : py_add a b = Raise e → e = OverflowError.
Proof.
  destruct a as [x|f], b as [y|g]; simpl; try done.
  - destruct (float_of_int x) eqn:Hx; simpl; [done|].
    intros [= <-]. eauto using float_of_int_raises.
  - destruct (float_of_int y) eqn:Hy; simpl; [done|].
    intros [= <-]. eauto using float_of_int_raises.
Qed.

Lemma py_truediv_by_float_raises (x : num) (g : float) (e : exn) :
  PrimFloat.eqb g 0 = false →
  py_truediv x (PyFloat g) = Raise e → e = OverflowError.
Proof.
  intros Hg. destruct x as [z|f]; simpl; unfold float_div; rewrite Hg.
  - destruct (float_of_int z) eqn:Hz; simpl; [done|].
    intros [= <-]. eauto using float_of_int_raises.
  - done.
Qed.

Lemma py_ceil_raises (x : num) (e : exn) :
  py_ceil x = Raise e → e = OverflowError ∨ e = ValueError.
Proof.
  destruct x as [z|f]; simpl; [done|].
  destruct (Prim2SF f); intros [= <-]; auto.
Qed.

Lemma ceil_quotient_raises (x : num) (g : float) (e : exn) :
  PrimFloat.eqb g 0 = false →
  py_truediv x (PyFloat g) ≫= py_ceil = Raise e →
  e = OverflowError ∨ e = ValueError.
Proof.
  intros Hg. destruct (py_truediv x (PyFloat g)) as [q|e'] eqn:Hq; simpl.
  - apply py_ceil_raises.
  - intros [= <-]. left. eauto using py_truediv_by_float_raises.
Qed.

(** ** The channel pattern and the channel plan in closed form *)

Lemma create_channel_pattern_small channels width :
  width ≤ len channels → _create_channel_pattern channels width = Ok channels.
Proof.
  intros Hw. unfold _create_channel_pattern.
  by destruct (Z.leb_spec width (len channels)); [|lia].
Qed.

Lemma create_channel_pattern_large channels width :
  channels ≠ [] → len channels < width →
  _create_channel_pattern channels width =
  Ok ((fun i => channels !!! Z.to_nat (i mod len channels)) <$> range width).
Proof.
  intros Hne Hw. unfold _create_channel_pattern.
  destruct (Z.leb_spec width (len channels)); [lia|].
  assert (0 < len channels) as Hpos.
  { unfold len. destruct channels; [done|]. simpl. lia. }
  rewrite (for_each_collect _ (fun i => channels !!! Z.to_nat (i mod len channels)));
    [done|].
  intros i _. rewrite py_mod_ok by lia. simpl.
  apply index_ok. apply Z.mod_pos_bound. lia.
Qed.

Lemma band_channels_init (use_5ghz : bool) :
  (if use_5ghz then (channels_5ghz __init__).*1 else [1; 6; 11]) = band_channels use_5ghz.
Proof. by destruct use_5ghz. Qed.

Lemma band_channels_nonempty use_5ghz : band_channels use_5ghz ≠ [].
Proof. by destruct use_5ghz. Qed.

Lemma create_channel_pattern_nonempty channels width pattern :
  channels ≠ [] →
  _create_channel_pattern channels width = Ok pattern → 0 < len pattern.
Proof.
  intros Hne. destruct (Z.le_gt_cases width (len channels)) as [Hw|Hw].
  - rewrite create_channel_pattern_small by done. intros [= <-].
    unfold len. destruct channels; [done|]. simpl. lia.
  - rewrite create_channel_pattern_large by done. intros [= <-].
    rewrite len_fmap_range. pose proof (len_nonneg channels). lia.
Qed.

Lemma for_each_ext {S A} (body1 body2 : S → A → result S) (l : list A) (s : S) :
  (∀ s a, body1 s a = body2 s a) → for_each l body1 s = for_each l body2 s.
Proof.
  intros Hext. revert s. induction l as [|a l IH]; intros s; simpl; [done|].
  rewrite Hext. destruct (body2 s a); simpl; [apply IH|done].
Qed.

Lemma plan_step_loop layout use_5ghz pattern cs plan id :
  0 < len pattern →
  for_each cs (plan_step layout use_5ghz pattern) (plan, id) =
  Ok (plan ++ imap (fun k => cell_config layout use_5ghz pattern (id + Z.of_nat k)) cs,
      id + len cs).
Proof.
  intros Hpos. revert plan id.
  induction cs as [|[row col] cs IH]; intros plan id; simpl.
  - rewrite app_nil_r. unfold len. simpl. by rewrite Z.add_0_r.
  - rewrite py_mod_ok by lia. simpl.
    rewrite index_ok by (apply Z.mod_pos_bound; lia). simpl.
    rewrite IH. f_equal. f_equal.
    + rewrite <- app_assoc. f_equal. simpl. f_equal.
      * unfold cell_config. simpl. by rewrite Z.add_0_r.
      * apply imap_ext. intros k rc _. simpl. f_equal. lia.
    + unfold len. simpl. lia.
Qed.

(** The two nested loops are one loop over the cells in row-major order, and
    the plan is the list of their configurations, numbered from 1. *)
Lemma generate_channel_plan_closed layout use_5ghz pattern :
  _create_channel_pattern (band_channels use_5ghz) (grid_width (ap_grid layout))
    = Ok pattern →
  generate_channel_plan __init__ layout use_5ghz =
  Ok (imap (fun k => cell_config layout use_5ghz pattern (1 + Z.of_nat k))
        (cells (grid_length (ap_grid layout)) (grid_width (ap_grid layout)))).
Proof.
  intros Hpat. unfold generate_channel_plan.
  assert ((if use_5ghz
           then _create_channel_pattern (channels_5ghz __init__).*1
                  (grid_width (ap_grid layout))
           else _create_channel_pattern [1; 6; 11] (grid_width (ap_grid layout)))
          = Ok pattern) as ->.
  { destruct use_5ghz; exact Hpat. }
  simpl.
  pose proof (create_channel_pattern_nonempty _ _ _
                (band_channels_nonempty use_5ghz) Hpat) as Hpos.
  rewrite (for_each_ext _
             (fun st row =>
                for_each ((fun col : Z => (row, col)) <$> range (grid_width (ap_grid layout)))
                  (plan_step layout use_5ghz pattern) st)).
  - rewrite <- (for_each_bind (fun row : Z => (fun col : Z => (row, col)) <$> range _)).
    fold (cells (grid_length (ap_grid layout)) (grid_width (ap_grid layout))).
    rewrite plan_step_loop by done. done.
  - intros st row. rewrite for_each_fmap. apply for_each_ext.
    intros [plan id] col. done.
Qed.

Lemma cells_lookup_from (cols : Z) (n s r c : nat) :
  (r < n)%nat → Z.of_nat c < cols →
  ((Z.of_nat <$> seq s n) ≫= fun row : Z => (fun col : Z => (row, col)) <$> range cols)
    !! (r * Z.to_nat cols + c)%nat
  = Some (Z.of_nat (s + r), Z.of_nat c).
Proof.
  intros Hr Hc. revert s r Hr. induction n as [|n IH]; intros s r Hr; [lia|].
  simpl. destruct r as [|r].
  - rewrite lookup_app_l by (rewrite length_fmap; fold (len (range cols)) in *;
      unfold range; rewrite length_fmap, length_seq; lia).
    rewrite list_lookup_fmap, range_lookup by done. simpl.
    by rewrite Nat.add_0_r.
  - rewrite lookup_app_r by (unfold range; rewrite !length_fmap, length_seq; lia).
    unfold range at 1. rewrite !length_fmap, length_seq.
    replace (Datatypes.S r * Z.to_nat cols + c - Z.to_nat cols)%nat
      with (r * Z.to_nat cols + c)%nat by lia.
    rewrite IH by lia. do 2 f_equal. lia.
Qed.

Lemma cells_lookup rows cols row col :
  0 ≤ row < rows → 0 ≤ col < cols →
  cells rows cols !! Z.to_nat (row * cols + col) = Some (row, col).
Proof.
  intros Hrow Hcol. unfold cells.
  change (range rows) with (Z.of_nat <$> seq 0 (Z.to_nat rows)).
  replace (Z.to_nat (row * cols + col))
    with (Z.to_nat row * Z.to_nat cols + Z.to_nat col)%nat by nia.
  rewrite cells_lookup_from by lia. f_equal. f_equal; lia.
Qed.

Lemma plan_positions layout use_5ghz pattern (cs : list (Z * Z)) :
  position <$> imap (fun k => cell_config layout use_5ghz pattern (1 + Z.of_nat k)) cs = cs.
Proof.
  rewrite fmap_imap, (imap_ext _ (const id)) by done.
  rewrite imap_const. apply list_fmap_id.
Qed.

(** The configuration of the cell [(row, col)] in the plan. *)
Lemma plan_cell layout use_5ghz pattern row col :
  let columns := grid_width (ap_grid layout) in
  _create_channel_pattern (band_channels use_5ghz) columns = Ok pattern →
  0 ≤ row < grid_length (ap_grid layout) → 0 ≤ col < columns →
  ∃ plan cfg,
    generate_channel_plan __init__ layout use_5ghz = Ok plan ∧
    plan !! Z.to_nat (row * columns + col) = Some cfg ∧
    position cfg = (row, col) ∧
    index pattern ((col + row * columns) mod len pattern) = Ok (channel cfg).
Proof.
  intros columns Hpat Hrow Hcol.
  pose proof (create_channel_pattern_nonempty _ _ _
                (band_channels_nonempty use_5ghz) Hpat) as Hpos.
  eexists _, _. split; [by apply generate_channel_plan_closed|].
  rewrite list_lookup_imap, cells_lookup by done. simpl.
  split_and!; [done..|].
  rewrite index_ok by (apply Z.mod_pos_bound; lia). done.
Qed.

(** C1. [generate_channel_plan] visits the grid cells row-major and assigns
    channels through the pattern of [_create_channel_pattern]: with no more
    columns than channels in the band the pattern is the ordered channel list
    itself; otherwise it has as many entries as there are columns, entry [i]
    being [channels[i mod channelCount]]; the cell at [(row, col)] receives
    [pattern[(col + row * columnCount) mod patternLength]]. On a grid of 2
    columns with the 2.4 GHz list the whole 3-channel pattern is reused
    cyclically, nothing is cut off. *)
Theorem channel_plan_follows_pattern (layout : Layout) (use_5ghz : bool) :
  let channels := if use_5ghz then (channels_5ghz __init__).*1 else [1; 6; 11] in
  let columns := grid_width (ap_grid layout) in
  let rows := grid_length (ap_grid layout) in
  (∃ (pattern : list Z) (plan : list ApConfig),
     _create_channel_pattern channels columns = Ok pattern ∧
     generate_channel_plan __init__ layout use_5ghz = Ok plan ∧
     (columns ≤ len channels → pattern = channels) ∧
     (len channels < columns →
      len pattern = columns ∧
      ∀ i, 0 ≤ i < columns → index pattern i = index channels (i mod len channels)) ∧
     position <$> plan = cells rows columns ∧
     (∀ row col, 0 ≤ row < rows → 0 ≤ col < columns →
        ∃ cfg, plan !! Z.to_nat (row * columns + col) = Some cfg ∧
               position cfg = (row, col) ∧
               index pattern ((col + row * columns) mod len pattern) = Ok (channel cfg))) ∧
  _create_channel_pattern [1; 6; 11] 2 = Ok [1; 6; 11] ∧
  (narrow ← analyze_warehouse_layout (PyInt 60) (PyInt 100) (PyInt 8);
   plan ← generate_channel_plan __init__ narrow false;
   Ok (grid_width (ap_grid narrow), channel <$> plan) : result (Z * list Z))
  = Ok (2, [1; 6; 11; 1; 6; 11]).
Proof.
  intros channels columns rows. subst channels.
  rewrite band_channels_init.
  split; [|split; vm_compute; reflexivity].
  pose proof (band_channels_nonempty use_5ghz) as Hne.
  assert (0 < len (band_channels use_5ghz)) as Hlen by (by destruct use_5ghz).
  assert (∃ pattern, _create_channel_pattern (band_channels use_5ghz) columns = Ok pattern
            ∧ (columns ≤ len (band_channels use_5ghz) → pattern = band_channels use_5ghz)
            ∧ (len (band_channels use_5ghz) < columns →
               pattern = (fun i => band_channels use_5ghz
                                     !!! Z.to_nat (i mod len (band_channels use_5ghz)))
                         <$> range columns))
    as (pattern & Hpat & Hsmall & Hlarge).
  { destruct (Z.le_gt_cases columns (len (band_channels use_5ghz))) as [Hw|Hw].
    - eexists. split; [by apply create_channel_pattern_small|]. split; [done|lia].
    - eexists. split; [by apply create_channel_pattern_large|]. split; [lia|done]. }
  exists pattern. eexists.
  split; [done|]. split; [by apply generate_channel_plan_closed|].
  split; [done|]. split; [|split].
  - intros Hw. specialize (Hlarge Hw). subst pattern.
    split; [rewrite len_fmap_range; lia|].
    intros i Hi.
    rewrite !index_ok; [| apply Z.mod_pos_bound; lia | rewrite len_fmap_range; lia].
    f_equal. apply list_lookup_total_correct.
    rewrite list_lookup_fmap, range_lookup by lia. simpl.
    by rewrite Z2Nat.id by lia.
  - apply plan_positions.
  - intros row col Hrow Hcol.
    destruct (plan_cell layout use_5ghz pattern row col Hpat Hrow Hcol)
      as (plan & cfg & Hplan & Hcfg & Hposn & Hch).
    rewrite (generate_channel_plan_closed _ _ _ Hpat) in Hplan.
    injection Hplan as <-. eauto.
Qed.

(** C10. On a grid with strictly more columns than the band has channels the
    pattern is as long as a row, so the index [(col + row * columnCount) mod
    patternLength] is [col]: the cell at [(row, col)] receives
    [channels[col mod channelCount]] whatever the row, and the access points
    of one column are co-channel. *)
Theorem wide_grid_column_is_co_channel (layout : Layout) (use_5ghz : bool)
    (row row' col : Z) :
  let channels := if use_5ghz then (channels_5ghz __init__).*1 else [1; 6; 11] in
  let columns := grid_width (ap_grid layout) in
  let rows := grid_length (ap_grid layout) in
  len channels < columns →
  0 ≤ row < rows → 0 ≤ row' < rows → 0 ≤ col < columns →
  ∃ (pattern : list Z) (plan : list ApConfig) (cfg cfg' : ApConfig),
    _create_channel_pattern channels columns = Ok pattern ∧
    len pattern = columns ∧
    (col + row * columns) mod len pattern = col ∧
    generate_channel_plan __init__ layout use_5ghz = Ok plan ∧
    plan !! Z.to_nat (row * columns + col) = Some cfg ∧
    position cfg = (row, col) ∧
    index channels (col mod len channels) = Ok (channel cfg) ∧
    plan !! Z.to_nat (row' * columns + col) = Some cfg' ∧
    position cfg' = (row', col) ∧
    channel cfg' = channel cfg.
Proof.
  intros channels columns rows. subst channels. rewrite band_channels_init.
  intros Hw Hrow Hrow' Hcol.
  assert (0 < len (band_channels use_5ghz)) as Hlen by (by destruct use_5ghz).
  pose proof (create_channel_pattern_large _ _ (band_channels_nonempty use_5ghz) Hw)
    as Hpat.
  set (pattern := (fun i => band_channels use_5ghz
                              !!! Z.to_nat (i mod len (band_channels use_5ghz)))
                  <$> range columns) in Hpat.
  assert (len pattern = columns) as Hpl
    by (unfold pattern; rewrite len_fmap_range; lia).
  assert (∀ r, (col + r * columns) mod len pattern = col) as Hidx.
  { intros r. rewrite Hpl, Z.mod_add by lia. apply Z.mod_small. lia. }
  assert (index pattern col
          = index (band_channels use_5ghz) (col mod len (band_channels use_5ghz)))
    as Hcolumn.
  { rewrite !index_ok; [| apply Z.mod_pos_bound; lia | lia].
    f_equal. apply list_lookup_total_correct. unfold pattern.
    rewrite list_lookup_fmap, range_lookup by lia. simpl.
    by rewrite Z2Nat.id by lia. }
  destruct (plan_cell layout use_5ghz pattern row col Hpat Hrow Hcol)
    as (plan & cfg & Hplan & Hcfg & Hposn & Hch).
  destruct (plan_cell layout use_5ghz pattern row' col Hpat Hrow' Hcol)
    as (plan' & cfg' & Hplan' & Hcfg' & Hposn' & Hch').
  rewrite Hplan in Hplan'. injection Hplan' as <-.
  rewrite Hidx, Hcolumn in Hch, Hch'.
  exists pattern, plan, cfg, cfg'. split_and!; try done.
  rewrite Hch in Hch'. by injection Hch'.
Qed.

Lemma wide_grid_column_is_co_channel_witness :
  ∃ (pattern : list Z) (plan : list ApConfig) (cfg cfg' : ApConfig),
    _create_channel_pattern [1; 6; 11] 6 = Ok pattern ∧
    len pattern = 6 ∧
    (4 + 0 * 6) mod len pattern = 4 ∧
    generate_channel_plan __init__
      {| dimensions := example_dimensions; coverage_radius := 25;
         grid_spacing := PyFloat 35;
         ap_grid := {| grid_width := 6; grid_length := 9 |};
         total_aps := 54; vertical_consideration := high_ceiling |} false = Ok plan ∧
    plan !! Z.to_nat (0 * 6 + 4) = Some cfg ∧
    position cfg = (0, 4) ∧
    index [1; 6; 11] (4 mod len [1; 6; 11]) = Ok (channel cfg) ∧
    plan !! Z.to_nat (5 * 6 + 4) = Some cfg' ∧
    position cfg' = (5, 4) ∧
    channel cfg' = channel cfg.
Proof.
  apply (wide_grid_column_is_co_channel
           {| dimensions := example_dimensions; coverage_radius := 25;
              grid_spacing := PyFloat 35;
              ap_grid := {| grid_width := 6; grid_length := 9 |};
              total_aps := 54; vertical_consideration := high_ceiling |}
           false 0 5 4); simpl; unfold len; simpl; lia.
Defined.

(** C3. For a facility of 200 by 300 metres and 12 metres high,
    [analyze_warehouse_layout] returns the grid spacing 25 * 1.4 = 35, 6
    columns, 9 rows, 54 access points and the high-ceiling advisory, not the
    omnidirectional one. *)
Theorem analyze_warehouse_layout_example :
  analyze_warehouse_layout (PyInt 200) (PyInt 300) (PyInt 12) =
  Ok {| dimensions := {| dim_width := PyInt 200; dim_length := PyInt 300;
                         dim_height := PyInt 12 |};
        coverage_radius := 25;
        grid_spacing := PyFloat 35;
        ap_grid := {| grid_width := 6; grid_length := 9 |};
        total_aps := 54;
        vertical_consideration := "High ceiling detected - consider downtilt antennas" |}
  ∧ py_mul (PyInt 25) (PyFloat 1.4) = Ok (PyFloat 35)
  ∧ (py_truediv (PyInt 200) (PyFloat 35) ≫= py_ceil) = Ok 6
  ∧ (py_truediv (PyInt 300) (PyFloat 35) ≫= py_ceil) = Ok 9
  ∧ high_ceiling ≠ standard_ceiling.
Proof. split_and!; [vm_compute; reflexivity..|done]. Qed.

(** C5. In the 2.4 GHz band [calculate_channel_overlap] returns 0 when the
    separation [|A - B| * 5] is at least 25, 100 when [A = B], and otherwise
    a number whose exact value is [(25 - separation) / 25 * 100]: channels 1
    and 6 give 0, 1 and 1 give 100, 1 and 3 give 60. In any other band it
    returns 100 when [A = B] and 0 otherwise. *)
Theorem calculate_channel_overlap_model (A B : Z) :
  let separation := Z.abs (A - B) * 5 in
  (25 ≤ separation → calculate_channel_overlap A B "2.4" = Ok (PyInt 0)) ∧
  (A = B → calculate_channel_overlap A B "2.4" = Ok (PyInt 100)) ∧
  (0 < separation < 25 →
   ∃ (overlap : num) (q : Q),
     calculate_channel_overlap A B "2.4" = Ok overlap ∧
     value overlap = Some q ∧
     Qeq q ((25 - inject_Z separation) / 25 * 100)%Q) ∧
  calculate_channel_overlap 1 6 "2.4" = Ok (PyInt 0) ∧
  calculate_channel_overlap 1 1 "2.4" = Ok (PyInt 100) ∧
  calculate_channel_overlap 1 3 "2.4" = Ok (PyFloat 60) ∧
  (∀ band : string, band ≠ "2.4" →
     calculate_channel_overlap A B band = Ok (PyInt (if decide (A = B) then 100 else 0))).
Proof.
  intros separation.
  assert (calculate_channel_overlap A B "2.4" =
          if separation >=? 25 then Ok (PyInt 0)
          else if separation =? 0 then Ok (PyInt 100)
          else py_truediv (PyInt (25 - separation)) (PyInt 25)
                 ≫= fun q => py_mul q (PyInt 100)) as Heq by done.
  split_and!; try (vm_compute; reflexivity).
  - intros Hsep. rewrite Heq. by destruct (Z.geb_spec separation 25); [|lia].
  - intros ->. rewrite Heq. subst separation. by rewrite Z.sub_diag.
  - intros Hsep. rewrite Heq.
    destruct (Z.geb_spec separation 25); [lia|].
    destruct (Z.eqb_spec separation 0); [lia|].
    assert (separation = 5 ∨ separation = 10 ∨ separation = 15 ∨ separation = 20)
      as Hcases by (subst separation; lia).
    destruct Hcases as [-> | [-> | [-> | ->]]];
      eexists _, _; (split_and!; [reflexivity | reflexivity | vm_compute; reflexivity]).
  - intros band Hband. unfold calculate_channel_overlap.
    destruct (String.eqb_spec band "2.4"); [done|].
    f_equal. f_equal. destruct (Z.eqb_spec A B); by case_decide.
Qed.

(** C6, as the specification states it, fails: with a width of zero
    [analyze_warehouse_layout] raises nothing and returns a layout with zero
    access points; with a negative width it returns a negative count. *)
Lemma analyze_warehouse_layout_zero_width :
  analyze_warehouse_layout (PyInt 0) (PyInt 300) (PyInt 12) =
  Ok {| dimensions := {| dim_width := PyInt 0; dim_length := PyInt 300;
                         dim_height := PyInt 12 |};
        coverage_radius := 25;
        grid_spacing := PyFloat 35;
        ap_grid := {| grid_width := 0; grid_length := 9 |};
        total_aps := 0;
        vertical_consideration := high_ceiling |}
  ∧ (total_aps <$> analyze_warehouse_layout (PyInt (-200)) (PyInt 300) (PyInt 12))
    = Ok (-45)
  ∧ ¬ ∃ e, analyze_warehouse_layout (PyInt 0) (PyInt 300) (PyInt 12) = Raise e.
Proof.
  split_and!; [vm_compute; reflexivity..|].
  intros [e He]. vm_compute in He. discriminate He.
Qed.

(** C6, amended. [analyze_warehouse_layout] does not validate its arguments
    and raises no domain error. Its result is fixed by the ceilings of the
    quotients of the width and of the length by the grid spacing 35.0,
    whatever the signs and whatever the height: the columns and the rows are
    these ceilings and the number of access points is their product. It
    raises only when such a ceiling does not exist, and then
    [OverflowError] or [ValueError]. A zero width has the ceiling 0, hence a
    layout with zero access points. *)
Theorem analyze_warehouse_layout_unvalidated (width_m length_m height_m : num) :
  analyze_warehouse_layout width_m length_m height_m =
  (aps_width ← py_truediv width_m (PyFloat 35) ≫= py_ceil;
   aps_length ← py_truediv length_m (PyFloat 35) ≫= py_ceil;
   Ok {| dimensions := {| dim_width := width_m; dim_length := length_m;
                          dim_height := height_m |};
         coverage_radius := 25;
         grid_spacing := PyFloat 35;
         ap_grid := {| grid_width := aps_width; grid_length := aps_length |};
         total_aps := aps_width * aps_length;
         vertical_consideration :=
           if py_gt height_m (PyInt 10) then high_ceiling else standard_ceiling |}) ∧
  (∀ e : exn,
     analyze_warehouse_layout width_m length_m height_m = Raise e →
     e = OverflowError ∨ e = ValueError) ∧
  (∀ zero : num,
     zero = PyInt 0 ∨ zero = PyFloat 0 ∨ zero = PyFloat (-0) →
     py_truediv zero (PyFloat 35) ≫= py_ceil = Ok 0 ∧
     ∀ layout : Layout,
       analyze_warehouse_layout zero length_m height_m = Ok layout →
       grid_width (ap_grid layout) = 0 ∧ total_aps layout = 0).
Proof.
  assert (∀ w l h,
            analyze_warehouse_layout w l h =
            (aps_width ← py_truediv w (PyFloat 35) ≫= py_ceil;
             aps_length ← py_truediv l (PyFloat 35) ≫= py_ceil;
             Ok {| dimensions := {| dim_width := w; dim_length := l; dim_height := h |};
                   coverage_radius := 25;
                   grid_spacing := PyFloat 35;
                   ap_grid := {| grid_width := aps_width; grid_length := aps_length |};
                   total_aps := aps_width * aps_length;
                   vertical_consideration :=
                     if py_gt h (PyInt 10) then high_ceiling else standard_ceiling |}))
    as Heq by done.
  split_and!.
  - apply Heq.
  - intros e. rewrite Heq.
    destruct (py_truediv width_m (PyFloat 35) ≫= py_ceil) as [cw|e'] eqn:Hw;
      cbn [mbind result_bind].
    + destruct (py_truediv length_m (PyFloat 35) ≫= py_ceil) as [cl|e'] eqn:Hl;
        cbn [mbind result_bind]; [done|].
      intros [= <-]. by apply (ceil_quotient_raises length_m 35).
    + intros [= <-]. by apply (ceil_quotient_raises width_m 35).
  - intros zero Hzero.
    assert (py_truediv zero (PyFloat 35) ≫= py_ceil = Ok 0) as Hz
      by (destruct Hzero as [-> | [-> | ->]]; vm_compute; reflexivity).
    split; [done|]. intros layout. rewrite Heq, Hz. cbn [mbind result_bind].
    destruct (py_truediv length_m (PyFloat 35) ≫= py_ceil); cbn [mbind result_bind];
      [|done].
    by intros [= <-].
Qed.

Lemma run_bind_eq {A B} (m : Run A) (f : A → Run B) (w : World) :
  (m ≫= f) w =
  match m w with
  | (Ok a, w') => f a w'
  | (Raise e, w') => (Raise e, w')
  end.
Proof. reflexivity. Qed.

Lemma call_run {A B} (r : result A) (k : A → Run B) (w : World) :
  (call r ≫= k) w = match r with Ok a => k a w | Raise e => (Raise e, w) end.
Proof. by destruct r. Qed.

(** A loop whose body leaves the world alone leaves the world alone, and
    computes what the loop of the results computes. *)
Lemma for_each_leaves_world {S A} (body_run : S → A → Run S)
    (body : S → A → result S) (l : list A) (s : S) (w : World) :
  (∀ s a w, body_run s a w = (body s a, w)) →
  for_each l body_run s w = (for_each l body s, w).
Proof.
  intros Hbody. revert s. induction l as [|a l IH]; intros s; [done|].
  cbn [for_each]. rewrite run_bind_eq, Hbody.
  destruct (body s a) as [s'|e]; [apply IH|done].
Qed.

(** Run statement by statement, the layout analysis returns what the function
    [analyze_warehouse_layout] returns and leaves the world as it is. *)
Lemma stepwise_layout (width_m length_m height_m : num) (w : World) :
  Stepwise.analyze_warehouse_layout width_m length_m height_m w
  = (analyze_warehouse_layout width_m length_m height_m, w).
Proof.
  unfold Stepwise.analyze_warehouse_layout, analyze_warehouse_layout.
  cbn zeta. rewrite call_run.
  destruct (py_mul (PyInt 25) (PyFloat 1.4)) as [grid_spacing|]; [|done].
  cbn [mbind result_bind]. rewrite call_run.
  destruct (py_truediv width_m grid_spacing) as [qw|]; [|done].
  cbn [mbind result_bind]. rewrite call_run.
  destruct (py_ceil qw) as [aps_width|]; [|done].
  rewrite call_run.
  destruct (py_truediv length_m grid_spacing) as [ql|]; [|done].
  cbn [mbind result_bind]. rewrite call_run.
  by destruct (py_ceil ql).
Qed.

(** The same for the capacity estimate. *)
Lemma stepwise_capacity (num_devices : Z) (device_types : list (string * Z))
    (w : World) :
  Stepwise.calculate_capacity_requirements num_devices device_types w
  = (calculate_capacity_requirements num_devices device_types, w).
Proof.
  unfold Stepwise.calculate_capacity_requirements, calculate_capacity_requirements.
  cbn zeta. rewrite run_bind_eq.
  lazymatch goal with
  | |- _ = (for_each _ ?body _ ≫= _, _) =>
      rewrite (for_each_leaves_world _ body)
  end.
  2:{ intros [total breakdown] [device_type count] w0.
      rewrite call_run.
      destruct (py_mul _ _) as [bandwidth|]; [|reflexivity].
      cbn [mbind result_bind]. rewrite call_run.
      destruct (py_add total bandwidth); reflexivity. }
  destruct (for_each device_types _ _) as [[total breakdown]|]; [|done].
  cbn [mbind result_bind]. rewrite call_run.
  destruct (py_mul total (PyFloat 1.3)) as [total'|]; [|done].
  cbn [mbind result_bind]. rewrite call_run.
  destruct (py_truediv total' (PyInt 150)) as [cells|]; [|done].
  cbn [mbind result_bind]. rewrite call_run.
  by destruct (py_ceil cells).
Qed.

(** C8. [analyze_warehouse_layout] and [calculate_capacity_requirements] are
    deterministic and have no hidden randomness. Run statement by statement
    in the world, where every statement could read the random source or the
    clock, each of them returns the same result in any two states of the
    world, namely the value of the function of its arguments alone, and
    leaves the world, the position in the random source included, as it
    found it; two calls one after the other return the same result twice. *)
Theorem layout_and_capacity_deterministic
    (width_m length_m height_m : num) (num_devices : Z)
    (device_types : list (string * Z)) (w1 w2 : World) :
  let layout := Stepwise.analyze_warehouse_layout width_m length_m height_m in
  let capacity := Stepwise.calculate_capacity_requirements num_devices device_types in
  (layout w1).1 = (layout w2).1 ∧
  (layout w1).1 = analyze_warehouse_layout width_m length_m height_m ∧
  (layout w1).2 = w1 ∧
  (capacity w1).1 = (capacity w2).1 ∧
  (capacity w1).1 = calculate_capacity_requirements num_devices device_types ∧
  (capacity w1).2 = w1 ∧
  (layout ≫= fun first => layout ≫= fun second => mret (first, second)) w1
  = (layout ≫= fun first => mret (first, first)) w1 ∧
  (capacity ≫= fun first => capacity ≫= fun second => mret (first, second)) w1
  = (capacity ≫= fun first => mret (first, first)) w1.
Proof.
  intros layout capacity. unfold layout, capacity.
  split_and!; rewrite ?run_bind_eq, ?stepwise_layout, ?stepwise_capacity; try done.
  - destruct (analyze_warehouse_layout width_m length_m height_m) eqn:Hlayout;
      [|done].
    by rewrite run_bind_eq, stepwise_layout, Hlayout.
  - destruct (calculate_capacity_requirements num_devices device_types)
      eqn:Hcapacity; [|done].
    by rewrite run_bind_eq, stepwise_capacity, Hcapacity.
Qed.

Lemma mapM_type_bandwidth_raises mix e :
  mapM Spec.type_bandwidth mix = Raise e → e = OverflowError.
Proof.
  induction mix as [|item mix IH]; simpl; [done|].
  destruct (Spec.type_bandwidth item) eqn:Hb; simpl.
  - destruct (mapM Spec.type_bandwidth mix); simpl; [done|].
    intros [= <-]. by apply IH.
  - intros [= <-]. eauto using py_mul_raises.
Qed.

(** The accumulating loop of [calculate_capacity_requirements] computes the
    per-type bandwidths, their sum and the breakdown. *)
Lemma capacity_loop mix (total : num) (breakdown : list (string * DeviceEntry)) :
  for_each mix
    (fun '(total_bandwidth, device_breakdown) '(device_type, count) =>
       bandwidth ←
         py_mul (dict_get bandwidth_table device_type (PyInt 1)) (PyInt count);
       total_bandwidth ← py_add total_bandwidth bandwidth;
       Ok (total_bandwidth,
           dict_set device_type
             {| count := count;
                bandwidth_per_device := dict_get bandwidth_table device_type (PyInt 1);
                total_bandwidth := bandwidth |}
             device_breakdown))
    (total, breakdown)
  = (bandwidths ← mapM Spec.type_bandwidth mix;
     raw ← Spec.sum_from total bandwidths;
     Ok (raw, foldl Spec.record_type breakdown (zip mix bandwidths))).
Proof.
  revert total breakdown.
  induction mix as [|[device_type count] mix IH]; intros total breakdown; [done|].
  cbn [for_each mapM].
  change (Spec.type_bandwidth (device_type, count))
    with (py_mul (Spec.weight device_type) (PyInt count)).
  fold (Spec.weight device_type).
  destruct (py_mul (Spec.weight device_type) (PyInt count)) as [b|e]; [|done].
  cbn [mbind result_bind].
  destruct (py_add total b) as [total'|e] eqn:Hadd; cbn [mbind result_bind].
  - rewrite IH.
    destruct (mapM Spec.type_bandwidth mix) as [bs|e]; [|done].
    cbn [mbind result_bind mret result_ret Spec.sum_from]. by rewrite Hadd.
  - pose proof (py_add_raises _ _ _ Hadd) as ->.
    destruct (mapM Spec.type_bandwidth mix) as [bs|e] eqn:Hbs.
    + cbn [mbind result_bind mret result_ret Spec.sum_from]. by rewrite Hadd.
    + by apply mapM_type_bandwidth_raises in Hbs as ->.
Qed.

Lemma dict_get_default {V} (d : list (string * V)) (k : string) (v : V) :
  k ∉ d.*1 → dict_get d k v = v.
Proof.
  induction d as [|[k' v'] d IH]; simpl; [done|].
  rewrite not_elem_of_cons. intros [Hk Hd].
  destruct (String.eqb_spec k' k); [congruence|]. by apply IH.
Qed.

(** C4. [calculate_capacity_requirements] computes, for each device type,
    the bandwidth lookup(type, default 1) × count, sums these across the
    types, multiplies the sum by 1.3 and takes ceil(total ÷ 150) as the
    number of access points. A label outside the table is accepted with the
    weight 1. For the example mix the total is 503.75 Mbps and the count
    is 4. *)
Theorem calculate_capacity_requirements_model
    (num_devices : Z) (device_types : list (string * Z)) :
  calculate_capacity_requirements num_devices device_types
  = Spec.capacity num_devices device_types ∧
  (∀ (label : string) (count : Z),
     label ∉ bandwidth_table.*1 →
     dict_get bandwidth_table label (PyInt 1) = PyInt 1 ∧
     Spec.type_bandwidth (label, count) = Ok (PyInt count)) ∧
  (capacity ← calculate_capacity_requirements 10 [("drone", 10)];
   Ok (total_bandwidth_required capacity, aps_for_capacity capacity)
   : result (num * Z)) = Ok (PyFloat 13, 1) ∧
  (bandwidths ← mapM Spec.type_bandwidth (info_device_types example_devices);
   Spec.sum_from (PyInt 0) bandwidths) = Ok (PyFloat 387.5) ∧
  py_mul (PyFloat 387.5) (PyFloat 1.3) = Ok (PyFloat 503.75) ∧
  (capacity ← calculate_capacity_requirements 500 (info_device_types example_devices);
   Ok (total_bandwidth_required capacity, aps_for_capacity capacity)
   : result (num * Z)) = Ok (PyFloat 503.75, 4).
Proof.
  split_and!; try (vm_compute; reflexivity).
  - unfold calculate_capacity_requirements, Spec.capacity.
    rewrite capacity_loop.
    destruct (mapM Spec.type_bandwidth device_types) as [bs|e]; [|done].
    cbn [mbind result_bind].
    destruct (Spec.sum_from (PyInt 0) bs) as [raw|e]; done.
  - intros label count Hlabel.
    assert (dict_get bandwidth_table label (PyInt 1) = PyInt 1) as Hw
      by by apply dict_get_default.
    split; [done|]. unfold Spec.type_bandwidth, Spec.weight. cbn [fst snd].
    rewrite Hw. simpl. by destruct count.
Qed.

(** ** Sampling without replacement *)

(** Overwriting the selected item of a pool by its last item removes exactly
    the selected item from the pool shortened by one. *)
Lemma pool_vacancy {A} (pool : list A) (j t : nat) (x y : A) :
  (j ≤ t)%nat → pool !! j = Some x → pool !! t = Some y →
  x :: take t (<[j:=y]> pool) ≡ₚ take (Datatypes.S t) pool.
Proof.
  intros Hjt Hx Hy. rewrite (take_S_r _ _ _ Hy).
  destruct (decide (j = t)) as [->|Hne].
  - rewrite take_insert_ge by lia. replace y with x by congruence.
    apply Permutation_cons_append.
  - rewrite take_insert_lt by lia.
    assert (take t pool !! j = Some x) as Hx' by (rewrite lookup_take_lt by lia; done).
    pose proof (lookup_lt_Some _ _ _ Hx') as Hlt.
    rewrite insert_take_drop by done.
    rewrite <- (take_drop_middle _ _ _ Hx') at 3.
    rewrite <- !app_assoc. simpl.
    etrans; [|apply Permutation_middle].
    apply Permutation_skip, Permutation_app_head, Permutation_cons_append.
Qed.

Lemma randbelow_run n w :
  0 < n →
  ∃ j, randbelow n w = (Ok j, after_draw w) ∧ 0 ≤ j < n.
Proof.
  intros Hn. eexists. split; [reflexivity|]. apply Z.mod_pos_bound. lia.
Qed.

Lemma sample_step_run {A} `{!Inhabited A} (population result pool : list A)
    (s : nat) (w : World) :
  (s < length population)%nat → length pool = length population →
  ∃ (j : nat) (x y : A),
    (j ≤ length population - s - 1)%nat ∧
    pool !! j = Some x ∧
    pool !! (length population - s - 1)%nat = Some y ∧
    sample_step population (result, pool) (Z.of_nat s) w
    = (Ok (result ++ [x], <[j:=y]> pool), after_draw w).
Proof.
  intros Hs Hpool.
  destruct (randbelow_run (len population - Z.of_nat s) w) as (j & Hj & Hjr);
    [unfold len; lia|].
  unfold len in Hjr.
  destruct (lookup_lt_is_Some_2 pool (Z.to_nat j)) as [x Hx]; [lia|].
  destruct (lookup_lt_is_Some_2 pool (length population - s - 1)) as [y Hy]; [lia|].
  exists (Z.to_nat j), x, y. split_and!; [lia|done..|].
  unfold sample_step. rewrite run_bind_eq, Hj, run_bind_eq. unfold call at 1.
  rewrite index_ok by (unfold len; lia).
  rewrite run_bind_eq. unfold call at 1.
  rewrite index_ok by (unfold len; lia).
  replace (Z.to_nat (len population - Z.of_nat s - 1))
    with (length population - s - 1)%nat by (unfold len; lia).
  by rewrite (list_lookup_total_correct _ _ _ Hx), (list_lookup_total_correct _ _ _ Hy).
Qed.

(** The selection loop of [random.sample], started after [s] selections,
    keeps the selected items followed by the first [n - s] items of the pool
    a rearrangement of the population. *)
Lemma sample_loop {A} `{!Inhabited A} (population : list A) (m s : nat)
    (result pool : list A) (w : World) :
  (s + m ≤ length population)%nat →
  length pool = length population →
  length result = s →
  result ++ take (length population - s) pool ≡ₚ population →
  ∃ result' pool' w',
    for_each (Z.of_nat <$> seq s m) (sample_step population) (result, pool) w
    = (Ok (result', pool'), w') ∧
    length result' = (s + m)%nat ∧
    result' ++ take (length population - (s + m)) pool' ≡ₚ population.
Proof.
  revert s result pool w.
  induction m as [|m IH]; intros s result pool w Hsm Hpool Hres Hperm.
  - exists result, pool, w. rewrite Nat.add_0_r. done.
  - cbn [seq fmap list_fmap for_each].
    destruct (sample_step_run population result pool s w)
      as (j & x & y & Hj & Hx & Hy & Hstep); [lia|done|].
    rewrite run_bind_eq, Hstep.
    set (t := (length population - s - 1)%nat) in *.
    destruct (IH (Datatypes.S s) (result ++ [x]) (<[j:=y]> pool) (after_draw w))
      as (result' & pool' & w' & Hrun & Hlen & Hperm').
    + lia.
    + by rewrite length_insert.
    + rewrite length_app. simpl. lia.
    + rewrite <- app_assoc. simpl.
      replace (length population - Datatypes.S s)%nat with t by lia.
      rewrite (pool_vacancy pool j t x y) by done.
      replace (Datatypes.S t) with (length population - s)%nat by lia. done.
    + exists result', pool', w'. split; [exact Hrun|].
      replace (s + Datatypes.S m)%nat with (Datatypes.S s + m)%nat by lia. done.
Qed.

(** [random.sample] returns [k] distinct items of a population without
    repeats. *)
Lemma random_sample_run {A} `{!Inhabited A} (population : list A) (k : Z) (w : World) :
  NoDup population → 0 ≤ k ≤ len population →
  ∃ sampled w',
    random_sample population k w = (Ok sampled, w') ∧
    len sampled = k ∧ sampled ⊆ population ∧ NoDup sampled.
Proof.
  intros Hnd Hk. unfold random_sample.
  destruct (Z.leb_spec 0 k); [|lia].
  destruct (Z.leb_spec k (len population)); [|lia]. cbn [andb negb].
  destruct (sample_loop population (Z.to_nat k) 0 [] population w)
    as (sampled & pool' & w' & Hrun & Hlen & Hperm).
  - unfold len in *. lia.
  - done.
  - done.
  - simpl. by rewrite Nat.sub_0_r, firstn_all.
  - exists sampled, w'.
    rewrite run_bind_eq.
    change (for_each (M:=Run) (range k) _ ([], population) w)
      with (for_each (Z.of_nat <$> seq 0 (Z.to_nat k)) (sample_step population)
              ([], population) w).
    rewrite Hrun. split; [done|].
    rewrite <- Hperm in Hnd. apply NoDup_app in Hnd as (Hnd & _ & _).
    split_and!; [unfold len; lia| |done].
    intros x Hx. rewrite <- Hperm. apply elem_of_app. by left.
Qed.

Lemma interference_sources_NoDup : NoDup interference_sources.
Proof.
  apply (NoDup_fmap_1 source_type).
  apply (bool_decide_unpack _). vm_compute. reflexivity.
Qed.

Lemma random_randint_run (a b : Z) (w : World) :
  a ≤ b →
  ∃ k, random_randint a b w = (Ok k, after_draw w) ∧ a ≤ k ≤ b.
Proof.
  intros Hab. unfold random_randint.
  destruct (Z.ltb_spec 0 (b + 1 - a)); [|lia].
  destruct (randbelow_run (b + 1 - a) w) as (j & Hj & Hjr); [lia|].
  exists (a + j). rewrite run_bind_eq, Hj. split; [done|lia].
Qed.

Lemma detect_interference_sources_run (w : World) :
  ∃ detected w',
    detect_interference_sources w = (Ok detected, w') ∧
    2 ≤ len detected ≤ 4 ∧
    detected ⊆ interference_sources ∧
    NoDup detected.
Proof.
  unfold detect_interference_sources.
  destruct (random_randint_run 2 4 w) as (k & Hk & Hkr); [lia|].
  destruct (random_sample_run interference_sources k (after_draw w))
    as (detected & w' & Hrun & Hlen & Hsub & Hnd).
  { apply interference_sources_NoDup. }
  { unfold len. simpl. lia. }
  exists detected, w'.
  rewrite run_bind_eq, Hk, Hrun. split_and!; [done|lia|lia|done|done].
Qed.

(** C7. Whatever the random source yields, [detect_interference_sources]
    returns between 2 and 4 entries, all of them members of the catalog of
    five, none of them twice. *)
Theorem detect_interference_sources_sample (w : World) :
  length interference_sources = 5%nat ∧
  ∃ (detected : list InterferenceSource) (w' : World),
    detect_interference_sources w = (Ok detected, w') ∧
    2 ≤ len detected ≤ 4 ∧
    (∀ source, source ∈ detected → source ∈ interference_sources) ∧
    NoDup detected.
Proof.
  split; [done|].
  destruct (detect_interference_sources_run w) as (detected & w' & ? & ? & ? & ?).
  by exists detected, w'.
Qed.

(** The sample does depend on the random source: two sources give two
    different samples. *)
Lemma detect_interference_sources_depends_on_random_source :
  ∃ w1 w2 : World,
    random_draws w1 ≠ random_draws w2 ∧
    (detect_interference_sources w1).1 ≠ (detect_interference_sources w2).1.
Proof.
  exists {| random_draws := fun _ => 0; random_used := 0; now_isoformat := "";
            files := ∅; stdout := [] |},
         {| random_draws := fun _ => 1; random_used := 0; now_isoformat := "";
            files := ∅; stdout := [] |}.
  split.
  - intros Heq. apply (f_equal (fun f => f 0%nat)) in Heq. discriminate Heq.
  - vm_compute. intros Heq. discriminate Heq.
Qed.

Lemma print_run (text : string) (w : World) :
  print text w =
  (Ok (), {| random_draws := random_draws w; random_used := random_used w;
             now_isoformat := now_isoformat w; files := files w;
             stdout := stdout w ++ [text] |}).
Proof. reflexivity. Qed.

Lemma create_channel_pattern_total (use_5ghz : bool) (width : Z) :
  ∃ pattern, _create_channel_pattern (band_channels use_5ghz) width = Ok pattern.
Proof.
  destruct (Z.le_gt_cases width (len (band_channels use_5ghz))) as [Hw|Hw].
  - eexists. by apply create_channel_pattern_small.
  - eexists. apply create_channel_pattern_large; [|done].
    apply band_channels_nonempty.
Qed.

(** A run of [generate_optimization_report] whose layout and capacity
    analyses return. *)
Lemma generate_optimization_report_run (warehouse_name : string)
    (dimensions : Dimensions) (device_info : DeviceInfo)
    (layout : Layout) (capacity : Capacity) (w : World) :
  analyze_warehouse_layout (dim_width dimensions) (dim_length dimensions)
    (dim_height dimensions) = Ok layout →
  calculate_capacity_requirements (info_total_devices device_info)
    (info_device_types device_info) = Ok capacity →
  ∃ (report : Report) (w' : World),
    generate_optimization_report __init__ warehouse_name dimensions device_info w
    = (Ok report, w') ∧
    recommended_aps (executive_summary report)
    = Z.max (total_aps layout) (aps_for_capacity capacity) ∧
    layout_analysis report = layout ∧
    capacity_analysis report = capacity ∧
    files w' !! report_file __init__ = Some report.
Proof.
  intros Hlayout Hcapacity. unfold generate_optimization_report.
  rewrite run_bind_eq, print_run. cbn beta iota.
  rewrite run_bind_eq. unfold call at 1. rewrite Hlayout. cbn beta iota.
  destruct (create_channel_pattern_total true (grid_width (ap_grid layout)))
    as [pattern Hpat].
  rewrite run_bind_eq. unfold call at 1.
  rewrite (generate_channel_plan_closed _ _ _ Hpat). cbn beta iota.
  rewrite run_bind_eq.
  match goal with
  | |- context [detect_interference_sources ?w0] =>
      destruct (detect_interference_sources_run w0)
        as (detected & w1 & Hdetect & _)
  end.
  rewrite Hdetect. cbn beta iota.
  rewrite run_bind_eq. unfold call at 1. rewrite Hcapacity. cbn beta iota.
  rewrite run_bind_eq. unfold datetime_now_isoformat at 1. cbn beta iota zeta.
  rewrite run_bind_eq. unfold json_dump_file at 1. cbn beta iota.
  eexists _, _. split; [reflexivity|]. cbn [executive_summary recommended_aps
    layout_analysis capacity_analysis files].
  split_and!; [done..|]. apply lookup_insert_eq.
Qed.

(** C2. The recommended number of access points in the report is the larger
    of the layout's total and the capacity-driven number; for the example
    facility of 200 by 300 by 12 metres with the example device mix it is
    max(54, 4) = 54. *)
Theorem final_ap_count_is_max (warehouse_name : string) (dimensions : Dimensions)
    (device_info : DeviceInfo) (w : World) :
  (∀ (layout : Layout) (capacity : Capacity),
     analyze_warehouse_layout (dim_width dimensions) (dim_length dimensions)
       (dim_height dimensions) = Ok layout →
     calculate_capacity_requirements (info_total_devices device_info)
       (info_device_types device_info) = Ok capacity →
     ∃ (report : Report) (w' : World),
       generate_optimization_report __init__ warehouse_name dimensions device_info w
       = (Ok report, w') ∧
       layout_analysis report = layout ∧
       capacity_analysis report = capacity ∧
       recommended_aps (executive_summary report)
       = Z.max (total_aps layout) (aps_for_capacity capacity)) ∧
  (∃ (report : Report) (w' : World),
     generate_optimization_report __init__ example_name example_dimensions
       example_devices w = (Ok report, w') ∧
     total_aps (layout_analysis report) = 54 ∧
     aps_for_capacity (capacity_analysis report) = 4 ∧
     recommended_aps (executive_summary report) = 54).
Proof.
  split.
  - intros layout capacity Hlayout Hcapacity.
    destruct (generate_optimization_report_run warehouse_name dimensions device_info
                layout capacity w Hlayout Hcapacity)
      as (report & w' & Hrun & Hmax & Hl & Hc & _).
    by exists report, w'.
  - destruct (analyze_warehouse_layout (dim_width example_dimensions)
                (dim_length example_dimensions) (dim_height example_dimensions))
      as [layout|] eqn:Hlayout; [|by vm_compute in Hlayout].
    destruct (calculate_capacity_requirements (info_total_devices example_devices)
                (info_device_types example_devices))
      as [capacity|] eqn:Hcapacity; [|by vm_compute in Hcapacity].
    destruct (generate_optimization_report_run example_name example_dimensions
                example_devices layout capacity w Hlayout Hcapacity)
      as (report & w' & Hrun & Hmax & Hl & Hc & _).
    exists report, w'. split; [done|]. rewrite Hmax, Hl, Hc.
    vm_compute in Hlayout. vm_compute in Hcapacity.
    injection Hlayout as <-. injection Hcapacity as <-. done.
Qed.

(** C9. When the report file is absent, [visualize_channel_plan] prints the
    message that tells to run the optimizer first and returns normally: it
    raises nothing, prints nothing else and leaves the rest of the world as
    it was. *)
Theorem visualize_channel_plan_without_report
    (format_float_comma : float → string) (report_file : string) (w : World) :
  files w !! report_file = None →
  visualize_channel_plan format_float_comma report_file w =
  (Ok (),
   {| random_draws := random_draws w; random_used := random_used w;
      now_isoformat := now_isoformat w; files := files w;
      stdout := stdout w ++ ["No report found. Run channel_optimizer.py first."] |}).
Proof.
  intros Habsent. unfold visualize_channel_plan, json_load_file.
  by rewrite Habsent.
Qed.

Lemma visualize_channel_plan_without_report_witness :
  visualize_channel_plan (fun _ => "") "channel_optimization_report.json"
    {| random_draws := fun _ => 0; random_used := 0;
       now_isoformat := "2025-01-01T00:00:00"; files := ∅; stdout := [] |} =
  (Ok (),
   {| random_draws := fun _ => 0; random_used := 0;
      now_isoformat := "2025-01-01T00:00:00"; files := ∅;
      stdout := ["No report found. Run channel_optimizer.py first."] |}).
Proof.
  apply (visualize_channel_plan_without_report (fun _ => "")
           "channel_optimization_report.json"
           {| random_draws := fun _ => 0; random_used := 0;
              now_isoformat := "2025-01-01T00:00:00"; files := ∅; stdout := [] |}).
  reflexivity.
Defined.

(** * Further properties of the optimizer and of the visualizer *)

(** ** Channel overlap *)

(** X1. The overlap of two channels does not depend on their order, in
    either band. *)
Theorem calculate_channel_overlap_symmetric (A B : Z) (band : string) :
  calculate_channel_overlap A B band = calculate_channel_overlap B A band.
Proof.
  unfold calculate_channel_overlap.
  replace (Z.abs (B - A)) with (Z.abs (A - B)) by lia.
  by rewrite (Z.eqb_sym A B).
Qed.

(** X2. The 2.4 GHz channels that [__init__] keeps as "only non-overlapping
    channels" are the ones [generate_channel_plan] assigns, and any two
    different ones have no overlap according to [calculate_channel_overlap]. *)
Theorem catalogue_24ghz_is_non_overlapping (A B : Z) :
  A ∈ (channels_24ghz __init__).*1 → B ∈ (channels_24ghz __init__).*1 → A ≠ B →
  (channels_24ghz __init__).*1 = [1; 6; 11] ∧
  calculate_channel_overlap A B "2.4" = Ok (PyInt 0).
Proof.
  intros HA HB Hne. split; [done|].
  cbn in HA, HB. rewrite !elem_of_cons, elem_of_nil in HA, HB.
  destruct HA as [->|[->|[->|[]]]], HB as [->|[->|[->|[]]]];
    done || (vm_compute; reflexivity).
Qed.

Lemma catalogue_24ghz_is_non_overlapping_witness :
  (channels_24ghz __init__).*1 = [1; 6; 11] ∧
  calculate_channel_overlap 1 6 "2.4" = Ok (PyInt 0).
Proof.
  apply (catalogue_24ghz_is_non_overlapping 1 6);
    [cbn; rewrite !elem_of_cons; auto..|done].
Defined.

(** ** The channel pattern *)

Lemma range_pos (n : Z) : 0 < n → range n = 0 :: (Z.of_nat <$> seq 1 (Z.to_nat n - 1)).
Proof.
  intros Hn. unfold range.
  replace (Z.to_nat n) with (Datatypes.S (Z.to_nat n - 1)) at 1 by lia. done.
Qed.

(** X3. With an empty channel list [_create_channel_pattern] returns the
    empty list for a width that is not positive and raises
    [ZeroDivisionError] for a positive one. With channels it always returns
    a pattern: as long as the larger of the width and the channel count,
    made of these channels only, and with every channel in it. *)
Theorem create_channel_pattern_edges (channels : list Z) (width : Z) :
  (channels = [] →
   _create_channel_pattern channels width
   = if decide (width ≤ 0) then Ok [] else Raise ZeroDivisionError) ∧
  (channels ≠ [] →
   ∃ pattern : list Z,
     _create_channel_pattern channels width = Ok pattern ∧
     len pattern = Z.max width (len channels) ∧
     pattern ⊆ channels ∧ channels ⊆ pattern).
Proof.
  split.
  - intros ->. unfold _create_channel_pattern. change (len []) with 0.
    case_decide; destruct (Z.leb_spec width 0); try lia; [done|].
    by rewrite range_pos by lia.
  - intros Hne.
    assert (0 < len channels) as Hpos.
    { unfold len. destruct channels; [done|]. simpl. lia. }
    destruct (Z.le_gt_cases width (len channels)) as [Hw|Hw].
    + exists channels. rewrite create_channel_pattern_small by done.
      split_and!; [done|lia|done|done].
    + eexists. split; [by apply create_channel_pattern_large|].
      split_and!.
      * rewrite len_fmap_range. lia.
      * intros c Hc. apply list_elem_of_fmap in Hc as (i & -> & Hi).
        apply list_elem_of_lookup_total_2. unfold len in *.
        pose proof (Z.mod_pos_bound i (Z.of_nat (length channels))). lia.
      * intros c Hc. apply list_elem_of_lookup in Hc as (k & Hk).
        pose proof (lookup_lt_Some _ _ _ Hk) as Hlt.
        apply list_elem_of_fmap. exists (Z.of_nat k). split.
        -- rewrite Z.mod_small by (unfold len; lia). rewrite Nat2Z.id.
           symmetry. by apply list_lookup_total_correct.
        -- apply elem_of_range. unfold len in *. lia.
Qed.

(** ** The channel plan *)

Lemma length_cells (rows cols : Z) :
  length (cells rows cols) = (Z.to_nat rows * Z.to_nat cols)%nat.
Proof.
  unfold cells.
  change (range rows) with (Z.of_nat <$> seq 0 (Z.to_nat rows)).
  generalize (Z.to_nat rows) as n, 0%nat as s.
  induction n as [|n IH]; intros s; [done|].
  cbn [seq fmap list_fmap mbind list_bind]. rewrite length_app, IH.
  unfold range. rewrite !length_fmap, length_seq. lia.
Qed.

Lemma pattern_within_channels (channels pattern : list Z) (width : Z) :
  channels ≠ [] →
  _create_channel_pattern channels width = Ok pattern →
  pattern ⊆ channels.
Proof.
  intros Hne.
  assert (0 < len channels) as Hpos.
  { unfold len. destruct channels; [done|]. simpl. lia. }
  destruct (Z.le_gt_cases width (len channels)) as [Hw|Hw].
  - rewrite create_channel_pattern_small by done. by intros [= <-].
  - rewrite create_channel_pattern_large by done. intros [= <-].
    intros c Hc. apply list_elem_of_fmap in Hc as (i & -> & Hi).
    apply list_elem_of_lookup_total_2. unfold len in *.
    pose proof (Z.mod_pos_bound i (Z.of_nat (length channels))). lia.
Qed.

Lemma analyze_warehouse_layout_inv (width_m length_m height_m : num) (layout : Layout) :
  analyze_warehouse_layout width_m length_m height_m = Ok layout →
  coverage_radius layout = 25 ∧
  total_aps layout = grid_width (ap_grid layout) * grid_length (ap_grid layout) ∧
  py_truediv width_m (PyFloat 35) ≫= py_ceil = Ok (grid_width (ap_grid layout)) ∧
  py_truediv length_m (PyFloat 35) ≫= py_ceil = Ok (grid_length (ap_grid layout)).
Proof.
  unfold analyze_warehouse_layout.
  change (py_mul (PyInt 25) (PyFloat 1.4)) with (Ok (PyFloat 35)).
  cbn [mbind result_bind].
  destruct (py_truediv width_m (PyFloat 35) ≫= py_ceil) as [cw|]; [|done].
  cbn [mbind result_bind].
  destruct (py_truediv length_m (PyFloat 35) ≫= py_ceil) as [cl|]; [|done].
  cbn [mbind result_bind]. by intros [= <-].
Qed.

(** X4. [generate_channel_plan] never raises, and its plan has one entry per
    cell of the grid: max(0, rows) × max(0, columns) entries. On a layout of
    [analyze_warehouse_layout] whose two grid dimensions are not negative
    this is the layout's total; when both are negative the total is positive
    and the plan is empty. *)
Theorem channel_plan_size (width_m length_m height_m : num) (layout : Layout)
    (use_5ghz : bool) :
  analyze_warehouse_layout width_m length_m height_m = Ok layout →
  let columns := grid_width (ap_grid layout) in
  let rows := grid_length (ap_grid layout) in
  ∃ plan : list ApConfig,
    generate_channel_plan __init__ layout use_5ghz = Ok plan ∧
    len plan = Z.max 0 rows * Z.max 0 columns ∧
    (0 ≤ rows → 0 ≤ columns → len plan = total_aps layout) ∧
    (rows < 0 → columns < 0 → plan = [] ∧ 0 < total_aps layout).
Proof.
  intros Hlayout columns rows.
  apply analyze_warehouse_layout_inv in Hlayout as (_ & Htotal & _ & _).
  destruct (create_channel_pattern_total use_5ghz columns) as [pattern Hpat].
  set (plan := imap (fun k => cell_config layout use_5ghz pattern (1 + Z.of_nat k))
                 (cells rows columns)).
  exists plan. split; [by apply generate_channel_plan_closed|].
  assert (len plan = Z.max 0 rows * Z.max 0 columns) as Hlen.
  { unfold len, plan. rewrite length_imap, length_cells. lia. }
  fold rows columns in Htotal.
  split_and!; [done| |].
  - intros Hr Hc. rewrite Hlen, Htotal. lia.
  - intros Hr Hc. split; [|rewrite Htotal; nia].
    apply length_zero_iff_nil. unfold plan. rewrite length_imap, length_cells. lia.
Qed.

Lemma channel_plan_size_witness :
  ∃ plan : list ApConfig,
    generate_channel_plan __init__
      {| dimensions := {| dim_width := PyInt (-200); dim_length := PyInt (-300);
                          dim_height := PyInt 12 |};
         coverage_radius := 25; grid_spacing := PyFloat 35;
         ap_grid := {| grid_width := -5; grid_length := -8 |};
         total_aps := 40; vertical_consideration := high_ceiling |} true = Ok plan ∧
    len plan = Z.max 0 (-8) * Z.max 0 (-5) ∧
    (0 ≤ -8 → 0 ≤ -5 → len plan = 40) ∧
    (-8 < 0 → -5 < 0 → plan = [] ∧ 0 < 40).
Proof.
  apply (channel_plan_size (PyInt (-200)) (PyInt (-300)) (PyInt 12)
           {| dimensions := {| dim_width := PyInt (-200); dim_length := PyInt (-300);
                               dim_height := PyInt 12 |};
              coverage_radius := 25; grid_spacing := PyFloat 35;
              ap_grid := {| grid_width := -5; grid_length := -8 |};
              total_aps := 40; vertical_consideration := high_ceiling |} true).
  vm_compute. reflexivity.
Defined.

(** X5. Every entry of a plan carries a channel of the selected band, the
    name of that band, and the power tier of the layout's coverage radius;
    the radius of [analyze_warehouse_layout] being 25, every access point of
    its plans is at "Medium (14-17 dBm)". *)
Theorem channel_plan_entries (width_m length_m height_m : num) (layout : Layout)
    (use_5ghz : bool) (plan : list ApConfig) (cfg : ApConfig) :
  analyze_warehouse_layout width_m length_m height_m = Ok layout →
  generate_channel_plan __init__ layout use_5ghz = Ok plan →
  cfg ∈ plan →
  channel cfg ∈ (if use_5ghz then (channels_5ghz __init__).*1 else [1; 6; 11]) ∧
  band cfg = (if use_5ghz then "5GHz" else "2.4GHz") ∧
  tx_power cfg = "Medium (14-17 dBm)".
Proof.
  intros Hlayout Hplan Hcfg. rewrite band_channels_init.
  apply analyze_warehouse_layout_inv in Hlayout as (Hradius & _).
  destruct (create_channel_pattern_total use_5ghz (grid_width (ap_grid layout)))
    as [pattern Hpat].
  rewrite (generate_channel_plan_closed _ _ _ Hpat) in Hplan.
  injection Hplan as <-.
  apply elem_of_lookup_imap in Hcfg as (k & rc & -> & _).
  pose proof (create_channel_pattern_nonempty _ _ _
                (band_channels_nonempty use_5ghz) Hpat) as Hpos.
  split_and!; [|done|by cbn; rewrite Hradius].
  apply (pattern_within_channels _ _ _ (band_channels_nonempty use_5ghz) Hpat).
  cbn. apply list_elem_of_lookup_total_2. unfold len in *.
  pose proof (Z.mod_pos_bound (rc.2 + rc.1 * grid_width (ap_grid layout))
                (Z.of_nat (length pattern))). lia.
Qed.

Lemma channel_plan_entries_witness :
  channel {| ap_id := "AP-001"; position := (0, 0); channel := 1; band := "2.4GHz";
             tx_power := "Medium (14-17 dBm)" |} ∈ [1; 6; 11] ∧
  band {| ap_id := "AP-001"; position := (0, 0); channel := 1; band := "2.4GHz";
          tx_power := "Medium (14-17 dBm)" |} = "2.4GHz" ∧
  tx_power {| ap_id := "AP-001"; position := (0, 0); channel := 1; band := "2.4GHz";
              tx_power := "Medium (14-17 dBm)" |} = "Medium (14-17 dBm)".
Proof.
  apply (channel_plan_entries (PyInt 30) (PyInt 30) (PyInt 5)
           {| dimensions := {| dim_width := PyInt 30; dim_length := PyInt 30;
                               dim_height := PyInt 5 |};
              coverage_radius := 25; grid_spacing := PyFloat 35;
              ap_grid := {| grid_width := 1; grid_length := 1 |};
              total_aps := 1; vertical_consideration := standard_ceiling |}
           false
           [ {| ap_id := "AP-001"; position := (0, 0); channel := 1; band := "2.4GHz";
                tx_power := "Medium (14-17 dBm)" |} ]).
  - vm_compute. reflexivity.
  - vm_compute. reflexivity.
  - apply list_elem_of_here.
Defined.

(** *** Access point identifiers *)

(** The decimal digits of a positive number do not start with a zero. *)
Lemma pretty_N_go_head (x : N) (s : string) :
  (0 < x)%N → ∃ c s', pretty_N_go x s = String c s' ∧ c ≠ "0"%char.
Proof.
  revert s. induction (N.lt_wf_0 x) as [x _ IH]; intros s Hx.
  rewrite pretty_N_go_step by done.
  destruct (decide (x `div` 10 = 0)%N) as [Hq|Hq].
  - rewrite Hq, pretty_N_go_0. eexists _, _. split; [done|].
    apply N.div_small_iff in Hq; [|done].
    rewrite N.mod_small by done.
    intros Hc. apply (pretty_N_char_inj x 0) in Hc; lia.
  - apply IH; [|by apply N.neq_0_lt_0]. apply N.div_lt; lia.
Qed.

Lemma pretty_proper_digits (n : Z) : 0 ≤ n → proper_digits (pretty n).
Proof.
  intros Hn. destruct n as [|p|p]; [|
    |lia].
  - split; [done|]. by intros s' [= <-].
  - destruct (pretty_N_go_head (N.pos p) "") as (c & s & Hp & Hc); [lia|].
    change (pretty (Z.pos p)) with (pretty_N_go (N.pos p) ""). rewrite Hp.
    split; [done|]. intros s' [= -> _]. done.
Qed.

Lemma zeros_S (k : nat) : zeros (Datatypes.S k) = String "0" (zeros k).
Proof. by destruct k. Qed.

Lemma append_empty_l (s : string) : "" +:+ s = s.
Proof. reflexivity. Qed.

Lemma append_String (c : ascii) (s t : string) :
  String c s +:+ t = String c (s +:+ t).
Proof. reflexivity. Qed.

Lemma zeros_app_inj (a b : nat) (p q : string) :
  proper_digits p → proper_digits q →
  zeros a +:+ p = zeros b +:+ q → p = q.
Proof.
  intros [Hp0 Hp] [Hq0 Hq]. revert b.
  induction a as [|a IH]; intros [|b]; rewrite ?zeros_S;
    change (zeros 0) with ""; rewrite ?append_String, ?append_empty_l.
  - done.
  - intros ->. specialize (Hp _ eq_refl).
    destruct b; [|by rewrite zeros_S, append_String in Hp].
    change (zeros 0) with "" in Hp. by rewrite append_empty_l in Hp.
  - intros <-. specialize (Hq _ eq_refl).
    destruct a; [|by rewrite zeros_S, append_String in Hq].
    change (zeros 0) with "" in Hq. by rewrite append_empty_l in Hq.
  - intros [= Heq]. by apply (IH b).
Qed.

Lemma format_03d_nonneg (n : Z) :
  0 ≤ n →
  format_03d n = zeros (3 - String.length (pretty n)) +:+ pretty n.
Proof.
  intros Hn. unfold format_03d, zeros.
  destruct (Z.ltb_spec n 0); [lia|]. rewrite Z.abs_eq by done.
  rewrite append_empty_l. change (String.length "") with 0%nat.
  by rewrite Nat.sub_0_r.
Qed.

Lemma format_03d_inj (n m : Z) :
  0 ≤ n → 0 ≤ m → format_03d n = format_03d m → n = m.
Proof.
  intros Hn Hm. rewrite !format_03d_nonneg by done. intros Heq.
  apply zeros_app_inj in Heq; auto using pretty_proper_digits.
  by apply (inj pretty).
Qed.

(** X6. The access points of a plan are numbered in the order of the plan
    from ["AP-001"] on, with at least three digits, and no two of them have
    the same identifier. *)
Theorem channel_plan_identifiers (layout : Layout) (use_5ghz : bool)
    (plan : list ApConfig) :
  generate_channel_plan __init__ layout use_5ghz = Ok plan →
  (∀ (k : nat) (cfg : ApConfig),
     plan !! k = Some cfg → ap_id cfg = "AP-" +:+ format_03d (Z.of_nat k + 1)) ∧
  (∀ cfg : ApConfig, plan !! 0%nat = Some cfg → ap_id cfg = "AP-001") ∧
  NoDup (ap_id <$> plan).
Proof.
  intros Hplan.
  destruct (create_channel_pattern_total use_5ghz (grid_width (ap_grid layout)))
    as [pattern Hpat].
  rewrite (generate_channel_plan_closed _ _ _ Hpat) in Hplan.
  injection Hplan as <-.
  assert (∀ (k : nat) (cfg : ApConfig),
            imap (fun k => cell_config layout use_5ghz pattern (1 + Z.of_nat k))
              (cells (grid_length (ap_grid layout)) (grid_width (ap_grid layout)))
            !! k = Some cfg →
            ap_id cfg = "AP-" +:+ format_03d (Z.of_nat k + 1)) as Hid.
  { intros k cfg. rewrite list_lookup_imap.
    destruct (cells _ _ !! k); [|done]. intros [= <-]. cbn.
    by rewrite Z.add_comm. }
  split_and!; [done| |].
  - intros cfg Hcfg. by rewrite (Hid _ _ Hcfg).
  - apply NoDup_alt. intros i j id.
    rewrite !list_lookup_fmap.
    destruct (imap _ _ !! i) as [ci|] eqn:Hi; [|done].
    destruct (imap _ _ !! j) as [cj|] eqn:Hj; [|done].
    cbn. intros [= <-] [= Heq].
    rewrite (Hid _ _ Hi), (Hid _ _ Hj) in Heq.
    injection Heq as Heq. apply format_03d_inj in Heq; lia.
Qed.

Lemma channel_plan_identifiers_witness :
  (∀ (k : nat) (cfg : ApConfig),
     [ {| ap_id := "AP-001"; position := (0, 0); channel := 1; band := "2.4GHz";
          tx_power := "Medium (14-17 dBm)" |} ] !! k = Some cfg →
     ap_id cfg = "AP-" +:+ format_03d (Z.of_nat k + 1)) ∧
  (∀ cfg : ApConfig,
     [ {| ap_id := "AP-001"; position := (0, 0); channel := 1; band := "2.4GHz";
          tx_power := "Medium (14-17 dBm)" |} ] !! 0%nat = Some cfg →
     ap_id cfg = "AP-001") ∧
  NoDup (ap_id <$> [ {| ap_id := "AP-001"; position := (0, 0); channel := 1;
                        band := "2.4GHz"; tx_power := "Medium (14-17 dBm)" |} ]).
Proof.
  apply (channel_plan_identifiers
           {| dimensions := {| dim_width := PyInt 30; dim_length := PyInt 30;
                               dim_height := PyInt 5 |};
              coverage_radius := 25; grid_spacing := PyFloat 35;
              ap_grid := {| grid_width := 1; grid_length := 1 |};
              total_aps := 1; vertical_consideration := standard_ceiling |}
           false).
  vm_compute. reflexivity.
Defined.

(** ** The capacity estimate *)

Lemma calculate_capacity_requirements_inv (num_devices : Z)
    (device_types : list (string * Z)) (capacity : Capacity) :
  calculate_capacity_requirements num_devices device_types = Ok capacity →
  ∃ (bandwidths : list num) (raw total : num),
    mapM Spec.type_bandwidth device_types = Ok bandwidths ∧
    Spec.sum_from (PyInt 0) bandwidths = Ok raw ∧
    py_mul raw (PyFloat 1.3) = Ok total ∧
    py_truediv total (PyInt 150) ≫= py_ceil = Ok (aps_for_capacity capacity) ∧
    total_devices capacity = num_devices ∧
    device_breakdown capacity
    = foldl Spec.record_type [] (zip device_types bandwidths) ∧
    total_bandwidth_required capacity = py_round2 total.
Proof.
  unfold calculate_capacity_requirements. rewrite capacity_loop.
  destruct (mapM Spec.type_bandwidth device_types) as [bs|] eqn:Hbs; [|done].
  cbn [mbind result_bind].
  destruct (Spec.sum_from (PyInt 0) bs) as [raw|] eqn:Hraw; [|done].
  cbn [mbind result_bind].
  destruct (py_mul raw (PyFloat 1.3)) as [total|] eqn:Htotal; [|done].
  cbn [mbind result_bind].
  destruct (py_truediv total (PyInt 150) ≫= py_ceil) as [aps|] eqn:Haps; [|done].
  cbn [mbind result_bind]. intros [= <-]. by exists bs, raw, total.
Qed.

Lemma mapM_result_Forall2 {A B} (f : A → result B) (l : list A) (k : list B) :
  mapM f l = Ok k → Forall2 (fun a b => f a = Ok b) l k.
Proof.
  revert k. induction l as [|a l IH]; intros k; cbn.
  - intros [= <-]. constructor.
  - destruct (f a) as [b|] eqn:Hb; [|done]. cbn.
    destruct (mapM f l) as [k'|]; [|done]. cbn. intros [= <-].
    constructor; [done|]. by apply IH.
Qed.

Lemma dict_set_fresh {V} (k : string) (v : V) (d : list (string * V)) :
  k ∉ d.*1 → dict_set k v d = d ++ [(k, v)].
Proof.
  induction d as [|[k' v'] d IH]; cbn; [done|].
  rewrite not_elem_of_cons. intros [Hk Hd].
  destruct (String.eqb_spec k' k); [congruence|]. by rewrite IH.
Qed.

Lemma breakdown_of_distinct_types (items : list (string * Z * num))
    (breakdown : list (string * DeviceEntry)) :
  NoDup (breakdown.*1 ++ items.*1.*1) →
  foldl Spec.record_type breakdown items = breakdown ++ (breakdown_entry <$> items).
Proof.
  revert breakdown. induction items as [|item items IH]; intros breakdown Hnd; cbn.
  - by rewrite app_nil_r.
  - unfold Spec.record_type at 2.
    rewrite dict_set_fresh.
    + rewrite IH.
      * by rewrite <- app_assoc.
      * rewrite fmap_app. cbn. rewrite <- app_assoc. done.
    + cbn in Hnd. apply NoDup_app in Hnd as (_ & Hdisj & _).
      intros Hin. apply (Hdisj _ Hin). left.
Qed.

(** X7. The breakdown of [calculate_capacity_requirements] lists the device
    types of the mix once each and in the order of the mix, every one with
    its count, its unit bandwidth from the table (1 for a label outside it)
    and the product of the two; [total_devices] is the number passed in,
    whatever the counts of the mix add up to. *)
Theorem capacity_breakdown_follows_mix (num_devices : Z)
    (device_types : list (string * Z)) (capacity : Capacity) :
  NoDup device_types.*1 →
  calculate_capacity_requirements num_devices device_types = Ok capacity →
  total_devices capacity = num_devices ∧
  (device_breakdown capacity).*1 = device_types.*1 ∧
  count <$> (device_breakdown capacity).*2 = device_types.*2 ∧
  Forall2
    (fun (item : string * Z) (entry : string * DeviceEntry) =>
       entry.1 = item.1 ∧
       count entry.2 = item.2 ∧
       bandwidth_per_device entry.2 = dict_get bandwidth_table item.1 (PyInt 1) ∧
       py_mul (bandwidth_per_device entry.2) (PyInt (count entry.2))
       = Ok (total_bandwidth entry.2))
    device_types (device_breakdown capacity).
Proof.
  intros Hnd Hcap.
  apply calculate_capacity_requirements_inv in Hcap
    as (bs & raw & total & Hbs & _ & _ & _ & Hn & Hbd & _).
  apply mapM_result_Forall2 in Hbs.
  rewrite breakdown_of_distinct_types in Hbd; cbn in Hbd.
  2:{ cbn. rewrite fst_zip; [done|]. by rewrite (Forall2_length _ _ _ Hbs). }
  rewrite Hbd. clear Hbd Hnd. split; [done|].
  induction Hbs as [|item b items bs Hb Hbs IH]; [done|].
  destruct IH as (IH1 & IH2 & IH3). cbn [zip zip_with fmap list_fmap].
  split_and!.
  - cbn. by f_equal.
  - cbn. by f_equal.
  - constructor; [|done]. by destruct item.
Qed.

Lemma capacity_breakdown_follows_mix_witness :
  total_devices {| total_devices := 7;
                   device_breakdown :=
                     [("drone",
                       {| count := 10; bandwidth_per_device := PyInt 1;
                          total_bandwidth := PyInt 10 |})];
                   total_bandwidth_required := PyFloat 13;
                   aps_for_capacity := 1 |} = 7 ∧
  [("drone", {| count := 10; bandwidth_per_device := PyInt 1;
                total_bandwidth := PyInt 10 |})].*1 = [("drone", 10)].*1 ∧
  count <$> [("drone", {| count := 10; bandwidth_per_device := PyInt 1;
                          total_bandwidth := PyInt 10 |})].*2 = [("drone", 10)].*2 ∧
  Forall2
    (fun (item : string * Z) (entry : string * DeviceEntry) =>
       entry.1 = item.1 ∧
       count entry.2 = item.2 ∧
       bandwidth_per_device entry.2 = dict_get bandwidth_table item.1 (PyInt 1) ∧
       py_mul (bandwidth_per_device entry.2) (PyInt (count entry.2))
       = Ok (total_bandwidth entry.2))
    [("drone", 10)]
    [("drone", {| count := 10; bandwidth_per_device := PyInt 1;
                  total_bandwidth := PyInt 10 |})].
Proof.
  apply (capacity_breakdown_follows_mix 7 [("drone", 10)]
           {| total_devices := 7;
              device_breakdown :=
                [("drone",
                  {| count := 10; bandwidth_per_device := PyInt 1;
                     total_bandwidth := PyInt 10 |})];
              total_bandwidth_required := PyFloat 13;
              aps_for_capacity := 1 |}).
  - apply NoDup_singleton.
  - vm_compute. reflexivity.
Defined.

(** ** The interference sample and the random source *)

Lemma after_draws_fields (n : nat) (w : World) :
  random_used (Nat.iter n after_draw w) = (random_used w + n)%nat ∧
  random_draws (Nat.iter n after_draw w) = random_draws w ∧
  now_isoformat (Nat.iter n after_draw w) = now_isoformat w ∧
  files (Nat.iter n after_draw w) = files w ∧
  stdout (Nat.iter n after_draw w) = stdout w.
Proof.
  induction n as [|n IH].
  - cbn. by rewrite Nat.add_0_r.
  - rewrite Nat.iter_succ. revert IH.
    generalize (Nat.iter n after_draw w) as w'.
    intros w' (IH1 & IH2 & IH3 & IH4 & IH5). cbn.
    rewrite IH1. split_and!; [lia|done..].
Qed.

Lemma sample_step_exact {A} `{!Inhabited A} (population result pool : list A)
    (s : nat) (w : World) :
  (s < length population)%nat → length pool = length population →
  sample_step population (result, pool) (Z.of_nat s) w
  = (Ok (result ++
           [pool !!! Z.to_nat (random_draws w (random_used w)
                                mod (len population - Z.of_nat s))],
         <[Z.to_nat (random_draws w (random_used w) mod (len population - Z.of_nat s))
           := pool !!! (length population - s - 1)%nat]> pool),
     after_draw w).
Proof.
  intros Hs Hpool.
  pose proof (Z.mod_pos_bound (random_draws w (random_used w))
                (len population - Z.of_nat s)) as Hj.
  unfold len in Hj.
  unfold sample_step. rewrite run_bind_eq. unfold randbelow at 1.
  fold (after_draw w). rewrite run_bind_eq. unfold call at 1.
  rewrite index_ok by (unfold len; lia).
  rewrite run_bind_eq. unfold call at 1.
  rewrite index_ok by (unfold len; lia).
  by replace (Z.to_nat (len population - Z.of_nat s - 1))
    with (length population - s - 1)%nat by (unfold len; lia).
Qed.

(** The selection loop appends one item per iteration and reads the random
    source once per iteration; the first item it appends is the item of the
    pool at the first outcome. *)
Lemma sample_loop_trace {A} `{!Inhabited A} (population : list A) (m s : nat)
    (result pool : list A) (w : World) :
  (s + m ≤ length population)%nat →
  length pool = length population →
  ∃ extra pool',
    for_each (Z.of_nat <$> seq s m) (sample_step population) (result, pool) w
    = (Ok (result ++ extra, pool'), Nat.iter m after_draw w) ∧
    length extra = m ∧
    (0 < m →
     extra !! 0%nat
     = pool !! Z.to_nat (random_draws w (random_used w)
                           mod (len population - Z.of_nat s)))%nat.
Proof.
  revert s result pool w.
  induction m as [|m IH]; intros s result pool w Hsm Hpool.
  - exists [], pool. rewrite app_nil_r. split_and!; [done..|lia].
  - cbn [seq fmap list_fmap for_each].
    rewrite run_bind_eq, sample_step_exact by (lia || done).
    set (j := Z.to_nat (random_draws w (random_used w)
                          mod (len population - Z.of_nat s))).
    destruct (IH (Datatypes.S s) (result ++ [pool !!! j])
                (<[j:=pool !!! (length population - s - 1)%nat]> pool) (after_draw w))
      as (extra & pool' & Hrun & Hlen & _); [lia|by rewrite length_insert|].
    exists (pool !!! j :: extra), pool'. split_and!.
    + rewrite Hrun, <- app_assoc, <- Nat.iter_succ_r. done.
    + cbn. by rewrite Hlen.
    + intros _. cbn. symmetry. apply list_lookup_lookup_total_lt.
      pose proof (Z.mod_pos_bound (random_draws w (random_used w))
                    (len population - Z.of_nat s)) as Hj.
      unfold j, len in *. lia.
Qed.

Lemma random_randint_exact (a b : Z) (w : World) :
  a ≤ b →
  random_randint a b w
  = (Ok (a + random_draws w (random_used w) mod (b + 1 - a)), after_draw w).
Proof.
  intros Hab. unfold random_randint.
  by destruct (Z.ltb_spec 0 (b + 1 - a)); [|lia].
Qed.

Lemma detect_interference_sources_trace (w : World) :
  ∃ detected : list InterferenceSource,
    detect_interference_sources w
    = (Ok detected, Nat.iter (1 + length detected) after_draw w) ∧
    len detected = 2 + random_draws w (random_used w) mod 3 ∧
    detected !! 0%nat
    = interference_sources
        !! Z.to_nat (random_draws w (Datatypes.S (random_used w)) mod 5).
Proof.
  unfold detect_interference_sources.
  rewrite run_bind_eq, random_randint_exact by lia.
  change (4 + 1 - 2) with 3.
  pose proof (Z.mod_pos_bound (random_draws w (random_used w)) 3) as Hk.
  set (k := 2 + random_draws w (random_used w) mod 3) in *.
  unfold random_sample. change (len interference_sources) with 5.
  destruct (Z.leb_spec 0 k); [|lia]. destruct (Z.leb_spec k 5); [|lia].
  cbn [andb negb].
  destruct (sample_loop_trace interference_sources (Z.to_nat k) 0 []
              interference_sources (after_draw w))
    as (detected & pool' & Hrun & Hlen & Hfirst); [cbn; lia|done|].
  exists detected. rewrite run_bind_eq.
  change (for_each (M:=Run) (range k) _ ([], interference_sources) (after_draw w))
    with (for_each (Z.of_nat <$> seq 0 (Z.to_nat k))
            (sample_step interference_sources) ([], interference_sources)
            (after_draw w)).
  rewrite Hrun. cbn [app]. split_and!.
  - rewrite Hlen, <- Nat.iter_succ_r. done.
  - unfold len. lia.
  - rewrite Hfirst by lia. done.
Qed.


(** ** The report: what a run writes and what it leaves alone *)

Lemma generate_optimization_report_layout_raises (warehouse_name : string)
    (dimensions : Dimensions) (device_info : DeviceInfo) (e : exn) (w : World) :
  analyze_warehouse_layout (dim_width dimensions) (dim_length dimensions)
    (dim_height dimensions) = Raise e →
  generate_optimization_report __init__ warehouse_name dimensions device_info w
  = (Raise e, printed (analyzing_line warehouse_name) w).
Proof.
  intros Hlayout. unfold generate_optimization_report.
  rewrite run_bind_eq, print_run. cbn beta iota.
  rewrite run_bind_eq. unfold call at 1. by rewrite Hlayout.
Qed.

Lemma generate_optimization_report_capacity_raises (warehouse_name : string)
    (dimensions : Dimensions) (device_info : DeviceInfo) (layout : Layout)
    (e : exn) (w : World) :
  analyze_warehouse_layout (dim_width dimensions) (dim_length dimensions)
    (dim_height dimensions) = Ok layout →
  calculate_capacity_requirements (info_total_devices device_info)
    (info_device_types device_info) = Raise e →
  ∃ w' : World,
    generate_optimization_report __init__ warehouse_name dimensions device_info w
    = (Raise e, w') ∧
    files w' = files w ∧
    stdout w' = stdout w ++ [analyzing_line warehouse_name].
Proof.
  intros Hlayout Hcapacity. unfold generate_optimization_report.
  rewrite run_bind_eq, print_run. cbn beta iota.
  rewrite run_bind_eq. unfold call at 1. rewrite Hlayout. cbn beta iota.
  destruct (create_channel_pattern_total true (grid_width (ap_grid layout)))
    as [pattern Hpat].
  rewrite run_bind_eq. unfold call at 1.
  rewrite (generate_channel_plan_closed _ _ _ Hpat). cbn beta iota.
  rewrite run_bind_eq.
  match goal with
  | |- context [detect_interference_sources ?w0] =>
      destruct (detect_interference_sources_trace w0) as (detected & Hdetect & _);
      destruct (after_draws_fields (1 + length detected) w0) as (_ & _ & _ & Hf & Hs)
  end.
  rewrite Hdetect. cbn beta iota.
  rewrite run_bind_eq. unfold call at 1. rewrite Hcapacity.
  eexists. split; [reflexivity|]. by rewrite Hf, Hs.
Qed.

(** A successful run of [generate_optimization_report], in full. *)
Lemma generate_optimization_report_success (warehouse_name : string)
    (dimensions : Dimensions) (device_info : DeviceInfo)
    (layout : Layout) (capacity : Capacity) (w : World) :
  analyze_warehouse_layout (dim_width dimensions) (dim_length dimensions)
    (dim_height dimensions) = Ok layout →
  calculate_capacity_requirements (info_total_devices device_info)
    (info_device_types device_info) = Ok capacity →
  ∃ (plan : list ApConfig) (detected : list InterferenceSource)
    (report : Report) (w' : World),
    generate_channel_plan __init__ layout true = Ok plan ∧
    generate_optimization_report __init__ warehouse_name dimensions device_info w
    = (Ok report, w') ∧
    warehouse report = warehouse_name ∧
    timestamp report = now_isoformat w ∧
    layout_analysis report = layout ∧
    capacity_analysis report = capacity ∧
    channel_plan_summary report
    = {| plan_total_aps := len plan;
         channels_used := list_of_set (channel <$> plan);
         sample_assignments := take 5 plan |} ∧
    interference_analysis report = detected ∧
    files w' = <[report_file __init__ := report]> (files w) ∧
    stdout w' = stdout w ++ [analyzing_line warehouse_name] ∧
    random_used w' = (random_used w + 1 + length detected)%nat ∧
    now_isoformat w' = now_isoformat w.
Proof.
  intros Hlayout Hcapacity. unfold generate_optimization_report.
  rewrite run_bind_eq, print_run. cbn beta iota.
  rewrite run_bind_eq. unfold call at 1. rewrite Hlayout. cbn beta iota.
  destruct (create_channel_pattern_total true (grid_width (ap_grid layout)))
    as [pattern Hpat].
  rewrite run_bind_eq. unfold call at 1.
  rewrite (generate_channel_plan_closed _ _ _ Hpat). cbn beta iota.
  rewrite run_bind_eq.
  match goal with
  | |- context [detect_interference_sources ?w0] =>
      destruct (detect_interference_sources_trace w0) as (detected & Hdetect & _);
      destruct (after_draws_fields (1 + length detected) w0)
        as (Hu & _ & Hn & Hf & Hs)
  end.
  rewrite Hdetect. cbn beta iota.
  rewrite run_bind_eq. unfold call at 1. rewrite Hcapacity. cbn beta iota.
  rewrite run_bind_eq. unfold datetime_now_isoformat at 1. cbn beta iota zeta.
  rewrite run_bind_eq. unfold json_dump_file at 1. cbn beta iota.
  eexists _, detected, _, _. split; [reflexivity|]. split; [reflexivity|].
  cbn [warehouse timestamp layout_analysis capacity_analysis channel_plan_summary
       interference_analysis files stdout random_used now_isoformat].
  rewrite Hu, Hn, Hf, Hs. cbn [random_used now_isoformat files stdout].
  split_and!; try done. lia.
Qed.


Lemma small_layout_eq :
  analyze_warehouse_layout (dim_width small_dimensions) (dim_length small_dimensions)
    (dim_height small_dimensions) = Ok small_layout.
Proof. vm_compute. reflexivity. Qed.

Lemma small_capacity_eq :
  calculate_capacity_requirements (info_total_devices small_devices)
    (info_device_types small_devices) = Ok small_capacity.
Proof. vm_compute. reflexivity. Qed.


(** X10. When the layout analysis or the capacity estimate raises,
    [generate_optimization_report] raises the same exception and writes no
    file: the files are as before the run, and only the first line has been
    printed. *)
Theorem report_failure_writes_nothing (warehouse_name : string)
    (dimensions : Dimensions) (device_info : DeviceInfo) (e : exn) (w : World) :
  analyze_warehouse_layout (dim_width dimensions) (dim_length dimensions)
    (dim_height dimensions) = Raise e ∨
  (∃ layout : Layout,
     analyze_warehouse_layout (dim_width dimensions) (dim_length dimensions)
       (dim_height dimensions) = Ok layout ∧
     calculate_capacity_requirements (info_total_devices device_info)
       (info_device_types device_info) = Raise e) →
  ∃ w' : World,
    generate_optimization_report __init__ warehouse_name dimensions device_info w
    = (Raise e, w') ∧
    files w' = files w ∧
    stdout w' = stdout w ++ [analyzing_line warehouse_name].
Proof.
  intros [Hlayout | (layout & Hlayout & Hcapacity)].
  - eexists. split; [by apply generate_optimization_report_layout_raises|done].
  - by apply (generate_optimization_report_capacity_raises _ _ _ layout).
Qed.

Lemma report_failure_writes_nothing_witness :
  ∃ w' : World,
    generate_optimization_report __init__ "FC-NAN"
      {| dim_width := PyFloat nan; dim_length := PyInt 30; dim_height := PyInt 5 |}
      small_devices quiet_world = (Raise ValueError, w') ∧
    files w' = files quiet_world ∧
    stdout w' = stdout quiet_world ++ [analyzing_line "FC-NAN"].
Proof.
  apply (report_failure_writes_nothing "FC-NAN"
           {| dim_width := PyFloat nan; dim_length := PyInt 30; dim_height := PyInt 5 |}
           small_devices ValueError quiet_world).
  left. vm_compute. reflexivity.
Defined.








Lemma plan_length (layout : Layout) (use_5ghz : bool) (plan : list ApConfig) :
  generate_channel_plan __init__ layout use_5ghz = Ok plan →
  len plan = Z.max 0 (grid_length (ap_grid layout))
             * Z.max 0 (grid_width (ap_grid layout)).
Proof.
  intros Hplan.
  destruct (create_channel_pattern_total use_5ghz (grid_width (ap_grid layout)))
    as [pattern Hpat].
  rewrite (generate_channel_plan_closed _ _ _ Hpat) in Hplan.
  injection Hplan as <-. unfold len. rewrite length_imap, length_cells. lia.
Qed.



(** ** What the visualizer prints, and when it raises *)

Lemma print_first (text : string) {B} (k : unit → Run B) (w : World) :
  (print text ≫= k) w = k () (printed_lines [text] w).
Proof. reflexivity. Qed.

Lemma print_next (text : string) {B} (k : unit → Run B) (texts : list string)
    (w : World) :
  (print text ≫= k) (printed_lines texts w) = k () (printed_lines (texts ++ [text]) w).
Proof.
  rewrite run_bind_eq, print_run. unfold printed_lines. cbn. by rewrite <- app_assoc.
Qed.

Lemma print_last (text : string) (texts : list string) (w : World) :
  print text (printed_lines texts w) = (Ok (), printed_lines (texts ++ [text]) w).
Proof. rewrite print_run. unfold printed_lines. cbn. by rewrite <- app_assoc. Qed.

Lemma grid_row_loop (pattern : list Z) (width row : Z) (cols : list Z)
    (acc : list string) (w : World) :
  (cols = [] ∨ 0 < len pattern) →
  for_each cols
    (fun row_channels col =>
       let idx := row * width + col in
       channel ← call (py_mod idx (len pattern) ≫= index pattern);
       mret (row_channels ++ [right_align 3 (pretty channel)]))
    acc w
  = (Ok (acc ++ (cell_text pattern width row <$> cols)), w).
Proof.
  intros [-> | Hpos]; [by rewrite app_nil_r|].
  revert acc. induction cols as [|col cols IH]; intros acc.
  - by rewrite app_nil_r.
  - cbn [for_each]. rewrite run_bind_eq. cbn zeta. rewrite call_run.
    rewrite py_mod_ok by lia. cbn [mbind result_bind].
    rewrite index_ok by (apply Z.mod_pos_bound; lia).
    cbn [mret run_ret]. rewrite IH. by rewrite <- app_assoc.
Qed.

Lemma grid_loop (pattern : list Z) (width : Z) (rows : list Z)
    (texts : list string) (w : World) :
  (rows = [] ∨ range (Z.min width 15) = [] ∨ 0 < len pattern) →
  for_each rows
    (fun (_ : unit) row =>
       row_channels ←
         for_each (range (Z.min width 15))
           (fun row_channels col =>
              let idx := row * width + col in
              channel ← call (py_mod idx (len pattern) ≫= index pattern);
              mret (row_channels ++ [right_align 3 (pretty channel)]))
           [];
       print ("Row " +:+ right_align 2 (pretty (row + 1)) +:+ ": "
              +:+ String.concat " " row_channels))
    () (printed_lines texts w)
  = (Ok (), printed_lines (texts ++ (row_text pattern width <$> rows)) w).
Proof.
  intros [-> | Hok]; [by rewrite app_nil_r|].
  revert texts. induction rows as [|row rows IH]; intros texts.
  - by rewrite app_nil_r.
  - cbn [for_each]. rewrite run_bind_eq, run_bind_eq.
    rewrite grid_row_loop by done. cbn [app].
    rewrite print_last. cbn beta iota.
    fold (row_text pattern width row).
    rewrite IH. by rewrite <- app_assoc.
Qed.

Lemma len_list_repeat {A} (s : list A) (n : Z) :
  len (list_repeat s n) = Z.max 0 n * len s.
Proof.
  unfold list_repeat. replace (Z.max 0 n) with (Z.of_nat (Z.to_nat n)) by lia.
  induction (Z.to_nat n) as [|k IH]; [done|].
  cbn [replicate].
  change (mjoin (s :: replicate k s)) with (s ++ mjoin (replicate k s)).
  rewrite len_app, IH. lia.
Qed.




(** With no channel in the report the visualizer stops at the division by
    [len(channels_used)], after the header. *)
Lemma render_without_channels (format_float_comma : float → string)
    (report : Report) (w : World) :
  channels_used (channel_plan_summary report) = [] →
  render format_float_comma report w
  = (Raise ZeroDivisionError, printed_lines (header_lines report) w).
Proof.
  intros Hcu. unfold render. cbn zeta.
  rewrite print_first. rewrite !print_next.
  rewrite call_run. rewrite Hcu. reflexivity.
Qed.

(** Whatever happens after the grid, the header, the heading of the grid and
    its rows have been printed. *)
Lemma render_grid (format_float_comma : float → string) (report : Report) (w : World) :
  let channels_used := channels_used (channel_plan_summary report) in
  let width := grid_width (ap_grid (layout_analysis report)) in
  let length := grid_length (ap_grid (layout_analysis report)) in
  0 < len channels_used →
  ∃ (r : result unit) (rest : list string),
    render format_float_comma report w
    = (r, printed_lines
            (header_lines report ++ grid_heading
             ++ (row_text (list_repeat channels_used
                             ((width * length) `div` len channels_used + 1)) width
                   <$> range (Z.min length 10))
             ++ rest) w).
Proof.
  intros cu width length Hcu. unfold render. cbn zeta.
  fold cu width length.
  rewrite print_first. rewrite !print_next.
  rewrite call_run. unfold py_floordiv.
  destruct (Z.eqb_spec (len cu) 0) as [|_]; [lia|].
  rewrite !print_next.
  rewrite run_bind_eq.
  rewrite grid_loop.
  2:{ destruct (decide (0 < length)) as [Hl|Hl];
        [|left; unfold range; by replace (Z.to_nat (Z.min length 10)) with 0%nat by lia].
      destruct (decide (0 < width)) as [Hw|Hw];
        [|right; left; unfold range;
          by replace (Z.to_nat (Z.min width 15)) with 0%nat by lia].
      right; right. rewrite len_list_repeat.
      assert (0 ≤ (width * length) `div` len cu) by (apply Z.div_pos; nia). nia. }
  match goal with
  | |- context [printed_lines ?texts w] =>
      replace texts with
        ((header_lines report ++ grid_heading
          ++ (row_text (list_repeat cu ((width * length) `div` len cu + 1)) width
                <$> range (Z.min length 10))) ++ [])
        by (rewrite app_nil_r; reflexivity)
  end.
  generalize (@nil string) as rest. intros rest.
  set (shown := header_lines report ++ grid_heading
                ++ (row_text (list_repeat cu ((width * length) `div` len cu + 1)) width
                      <$> range (Z.min length 10))).
  assert (∀ (r : result unit) (rest : list string) (w' : World),
            w' = printed_lines (shown ++ rest) w →
            ∃ (r0 : result unit) (rest0 : list string),
              (r, w')
              = (r0, printed_lines
                       (header_lines report ++ grid_heading
                        ++ (row_text (list_repeat cu ((width * length) `div` len cu + 1))
                              width <$> range (Z.min length 10))
                        ++ rest0) w)) as Hdone.
  { intros r rest' w' ->. exists r, rest'. unfold shown.
    by rewrite <- !app_assoc. }
  destruct ((10 <? length) || (15 <? width)).
  - rewrite !print_next, <- !(app_assoc shown).
    rewrite call_run.
    destruct (_ ≫= _) as [min_separation|e]; [|by eapply Hdone].
    rewrite !print_next, <- !(app_assoc shown). rewrite call_run.
    destruct (py_mul _ _) as [coverage_area|e]; [|by eapply Hdone].
    rewrite !print_next, <- !(app_assoc shown). rewrite call_run.
    destruct (py_truediv _ _) as [area_per_ap|e]; [|by eapply Hdone].
    rewrite !print_next, <- !(app_assoc shown).
    rewrite print_last, <- (app_assoc shown).
    by eapply Hdone.
  - rewrite run_bind_eq. cbn [mret run_ret].
    rewrite !print_next, <- !(app_assoc shown).
    rewrite call_run.
    destruct (_ ≫= _) as [min_separation|e]; [|by eapply Hdone].
    rewrite !print_next, <- !(app_assoc shown). rewrite call_run.
    destruct (py_mul _ _) as [coverage_area|e]; [|by eapply Hdone].
    rewrite !print_next, <- !(app_assoc shown). rewrite call_run.
    destruct (py_truediv _ _) as [area_per_ap|e]; [|by eapply Hdone].
    rewrite !print_next, <- !(app_assoc shown).
    rewrite print_last, <- (app_assoc shown).
    by eapply Hdone.
Qed.

(** With one channel in the report there is no pair of neighbouring
    channels, and [min] of nothing raises. *)
Lemma render_single_channel (format_float_comma : float → string)
    (report : Report) (c : Z) (w : World) :
  channels_used (channel_plan_summary report) = [c] →
  (render format_float_comma report w).1 = Raise ValueError.
Proof.
  intros Hcu. unfold render. cbn zeta.
  rewrite print_first. rewrite !print_next.
  rewrite call_run. rewrite Hcu.
  change (len [c]) with 1. unfold py_floordiv. cbn [Z.eqb].
  rewrite !print_next.
  rewrite run_bind_eq.
  set (width := grid_width (ap_grid (layout_analysis report))).
  set (length := grid_length (ap_grid (layout_analysis report))).
  rewrite grid_loop.
  2:{ destruct (decide (0 < length)) as [Hl|Hl];
        [|left; unfold range; by replace (Z.to_nat (Z.min length 10)) with 0%nat by lia].
      destruct (decide (0 < width)) as [Hw|Hw];
        [|right; left; unfold range;
          by replace (Z.to_nat (Z.min width 15)) with 0%nat by lia].
      right; right. rewrite len_list_repeat. change (len [c]) with 1.
      rewrite Z.div_1_r. nia. }
  assert (∀ (texts : list string) (k : unit → Run unit),
            ∃ texts',
              ((if (10 <? length) || (15 <? width)
                then print (nl +:+ "... (showing partial grid for clarity)")
                else mret ()) ≫= k) (printed_lines texts w)
              = k () (printed_lines texts' w)) as Hpartial.
  { intros texts k. destruct ((10 <? length) || (15 <? width)).
    - eexists. apply print_next.
    - by exists texts. }
  match goal with
  | |- context [(_ ≫= ?k) (printed_lines ?texts w)] =>
      destruct (Hpartial texts k) as [texts' ->]
  end.
  rewrite !print_next. rewrite call_run. reflexivity.
Qed.

Lemma plan_empty (layout : Layout) (plan : list ApConfig) :
  generate_channel_plan __init__ layout true = Ok plan →
  grid_width (ap_grid layout) ≤ 0 ∨ grid_length (ap_grid layout) ≤ 0 →
  plan = [].
Proof.
  intros Hplan Hgrid. apply plan_length in Hplan.
  destruct plan; [done|]. unfold len in Hplan. cbn [length] in Hplan. lia.
Qed.

Lemma single_cell_plan (layout : Layout) (plan : list ApConfig) :
  generate_channel_plan __init__ layout true = Ok plan →
  grid_width (ap_grid layout) = 1 → grid_length (ap_grid layout) = 1 →
  channel <$> plan = [36].
Proof.
  intros Hplan Hwidth Hlength.
  rewrite (generate_channel_plan_closed layout true (band_channels true)) in Hplan
    by (rewrite Hwidth; reflexivity).
  injection Hplan as <-. rewrite Hlength. unfold cell_config. rewrite Hwidth.
  reflexivity.
Qed.

(** X12. A facility whose grid has no column or no row, such as one of zero
    width, gets a report with no access point and no channel, and
    [visualize_channel_plan] on that report raises ZeroDivisionError at
    [width * length // len(channels_used)], after it has printed the eight
    lines of the header and nothing else. *)
Theorem visualizer_fails_on_empty_grid (format_float_comma : float → string)
    (warehouse_name : string) (dimensions : Dimensions) (device_info : DeviceInfo)
    (layout : Layout) (capacity : Capacity) (w : World) :
  analyze_warehouse_layout (dim_width dimensions) (dim_length dimensions)
    (dim_height dimensions) = Ok layout →
  calculate_capacity_requirements (info_total_devices device_info)
    (info_device_types device_info) = Ok capacity →
  grid_width (ap_grid layout) ≤ 0 ∨ grid_length (ap_grid layout) ≤ 0 →
  ∃ (report : Report) (w' : World),
    generate_optimization_report __init__ warehouse_name dimensions device_info w
    = (Ok report, w') ∧
    channels_used (channel_plan_summary report) = [] ∧
    visualize_channel_plan format_float_comma "channel_optimization_report.json" w'
    = (Raise ZeroDivisionError, printed_lines (header_lines report) w').
Proof.
  intros Hlayout Hcapacity Hgrid.
  destruct (generate_optimization_report_success warehouse_name dimensions
              device_info layout capacity w Hlayout Hcapacity)
    as (plan & detected & report & w' & Hplan & Hrun & _ & _ & _ & _ & Hsummary
        & _ & Hfiles & _).
  exists report, w'. split; [done|].
  assert (channels_used (channel_plan_summary report) = []) as Hcu.
  { rewrite Hsummary. cbn. by rewrite (plan_empty _ _ Hplan Hgrid). }
  split; [done|].
  unfold visualize_channel_plan, json_load_file. rewrite Hfiles.
  change (report_file __init__) with "channel_optimization_report.json".
  rewrite lookup_insert_eq. by apply render_without_channels.
Qed.

Lemma visualizer_fails_on_empty_grid_witness :
  ∃ (report : Report) (w' : World),
    generate_optimization_report __init__ "FC-EMPTY" empty_dimensions small_devices
      quiet_world = (Ok report, w') ∧
    channels_used (channel_plan_summary report) = [] ∧
    visualize_channel_plan (fun _ => "") "channel_optimization_report.json" w'
    = (Raise ZeroDivisionError, printed_lines (header_lines report) w').
Proof.
  apply (visualizer_fails_on_empty_grid (fun _ => "") "FC-EMPTY" empty_dimensions
           small_devices empty_layout small_capacity quiet_world).
  - vm_compute. reflexivity.
  - vm_compute. reflexivity.
  - left. vm_compute. discriminate.
Defined.

(** X13. A facility that one access point covers (a grid of one column and
    one row) gets a report with the single channel 36, and
    [visualize_channel_plan] on that report raises ValueError: the minimum
    channel separation is the [min] of an empty sequence. *)
Theorem visualizer_fails_on_single_access_point (format_float_comma : float → string)
    (warehouse_name : string) (dimensions : Dimensions) (device_info : DeviceInfo)
    (layout : Layout) (capacity : Capacity) (w : World) :
  analyze_warehouse_layout (dim_width dimensions) (dim_length dimensions)
    (dim_height dimensions) = Ok layout →
  calculate_capacity_requirements (info_total_devices device_info)
    (info_device_types device_info) = Ok capacity →
  grid_width (ap_grid layout) = 1 → grid_length (ap_grid layout) = 1 →
  ∃ (report : Report) (w' : World),
    generate_optimization_report __init__ warehouse_name dimensions device_info w
    = (Ok report, w') ∧
    channels_used (channel_plan_summary report) = [36] ∧
    (visualize_channel_plan format_float_comma "channel_optimization_report.json" w').1
    = Raise ValueError.
Proof.
  intros Hlayout Hcapacity Hwidth Hlength.
  destruct (generate_optimization_report_success warehouse_name dimensions
              device_info layout capacity w Hlayout Hcapacity)
    as (plan & detected & report & w' & Hplan & Hrun & _ & _ & _ & _ & Hsummary
        & _ & Hfiles & _).
  exists report, w'. split; [done|].
  assert (channels_used (channel_plan_summary report) = [36]) as Hcu.
  { rewrite Hsummary. cbn [channels_used].
    by rewrite (single_cell_plan _ _ Hplan Hwidth Hlength). }
  split; [done|].
  unfold visualize_channel_plan, json_load_file. rewrite Hfiles.
  change (report_file __init__) with "channel_optimization_report.json".
  rewrite lookup_insert_eq. by apply (render_single_channel _ _ 36).
Qed.

Lemma visualizer_fails_on_single_access_point_witness :
  ∃ (report : Report) (w' : World),
    generate_optimization_report __init__ "FC-SMALL" small_dimensions small_devices
      quiet_world = (Ok report, w') ∧
    channels_used (channel_plan_summary report) = [36] ∧
    (visualize_channel_plan (fun _ => "") "channel_optimization_report.json" w').1
    = Raise ValueError.
Proof.
  apply (visualizer_fails_on_single_access_point (fun _ => "") "FC-SMALL"
           small_dimensions small_devices small_layout small_capacity quiet_world).
  - vm_compute. reflexivity.
  - vm_compute. reflexivity.
  - reflexivity.
  - reflexivity.
Defined.



(** X15. The grid shown is not always the plan. For the facility of [main()],
    in every world, the plan puts channel 36 on the access point at position
    (0, 0), while the first row that [visualize_channel_plan] then prints
    starts with 161: the report lists the channels in the order of the set,
    161 first. *)
Theorem visualizer_grid_is_not_the_plan (format_float_comma : float → string)
    (w : World) :
  ∃ (report : Report) (w' : World) (first : ApConfig) (r : result unit) (w'' : World),
    generate_optimization_report __init__ example_name example_dimensions
      example_devices w = (Ok report, w') ∧
    sample_assignments (channel_plan_summary report) !! 0%nat = Some first ∧
    position first = (0, 0) ∧
    channel first = 36 ∧
    visualize_channel_plan format_float_comma "channel_optimization_report.json" w'
    = (r, w'') ∧
    stdout w'' !! (length (stdout w') + 11)%nat
    = Some "Row  1: 161  36  40  44  48 149".
Proof.
  destruct (analyze_warehouse_layout (dim_width example_dimensions)
              (dim_length example_dimensions) (dim_height example_dimensions))
    as [layout|] eqn:Hlayout; [|by vm_compute in Hlayout].
  destruct (calculate_capacity_requirements (info_total_devices example_devices)
              (info_device_types example_devices))
    as [capacity|] eqn:Hcapacity; [|by vm_compute in Hcapacity].
  destruct (generate_optimization_report_success example_name example_dimensions
              example_devices layout capacity w Hlayout Hcapacity)
    as (plan & detected & report & w' & Hplan & Hrun & _ & _ & Hl & _ & Hsummary
        & _ & Hfiles & _).
  vm_compute in Hlayout. injection Hlayout as <-.
  vm_compute in Hplan. injection Hplan as <-.
  assert (channels_used (channel_plan_summary report)
          = [161; 36; 40; 44; 48; 149; 153; 157]) as Hcu
    by (rewrite Hsummary; vm_compute; reflexivity).
  destruct (render_grid format_float_comma report w') as (r & rest & Hrender).
  { rewrite Hcu. done. }
  rewrite Hcu, Hl in Hrender.
  exists report, w'. eexists _, r, _. split; [done|].
  split; [rewrite Hsummary; reflexivity|].
  split; [reflexivity|]. split; [reflexivity|]. split.
  { unfold visualize_channel_plan, json_load_file. rewrite Hfiles.
    change (report_file __init__) with "channel_optimization_report.json".
    rewrite lookup_insert_eq. exact Hrender. }
  cbn [stdout printed_lines]. rewrite lookup_app_r by lia.
  replace (length (stdout w') + 11 - length (stdout w'))%nat with 11%nat by lia.
  reflexivity.
Qed.
